(** * Spam_Email_Detection.ipynb: a shallow embedding of the notebook

    The notebook is a straight-line script of six code cells.  Its cells are
    embedded as a program in a small monad (global NumPy generator state,
    an event log, exceptions); the library calls it makes (pandas, NumPy,
    scikit-learn, matplotlib/seaborn) are gathered in a record so that the
    script can be run against the model of the libraries given here or
    against any other implementation. *)

From Stdlib Require Import List String Ascii ZArith Bool Arith Lia Floats
  Permutation.
From Stdlib Require FinFun.
Import ListNotations.
Open Scope string_scope.

(** ** NumPy's legacy generator: MT19937 as used by [RandomState] *)

Module MT19937.

Local Open Scope Z_scope.

Definition N : nat := 624.
Definition M : nat := 397.
Definition MATRIX_A : Z := 0x9908b0df.
Definition UPPER_MASK : Z := 0x80000000.
Definition LOWER_MASK : Z := 0x7fffffff.

Definition u32 (z : Z) : Z := Z.land z 0xffffffff.

(** [key] holds the 624 words, [pos] the index of the next word. *)
Record state := mkState { key : list Z; pos : nat }.

(** mt19937_seed: Knuth's recurrence, [pos] left at the end of the block. *)
Fixpoint seed_loop (n : nat) (p : Z) (s : Z) : list Z :=
  match n with
  | O => []
  | S n' =>
      s :: seed_loop n' (p + 1)
             (u32 (1812433253 * (Z.lxor s (Z.shiftr s 30)) + p + 1))
  end.

Definition seed (s : Z) : state :=
  mkState (seed_loop N 0 (u32 s)) N.

Definition get (k : list Z) (i : nat) : Z := nth i k 0.

Fixpoint set (k : list Z) (i : nat) (v : Z) : list Z :=
  match k, i with
  | [], _ => []
  | _ :: t, O => v :: t
  | h :: t, S i' => h :: set t i' v
  end.

(** One word of the in-place regeneration: word [i] from words [i],
    [j] (its successor, cyclically) and [m] (397 further, cyclically). *)
Definition twist (k : list Z) (i j m : nat) : list Z :=
  let y := Z.lor (Z.land (get k i) UPPER_MASK) (Z.land (get k j) LOWER_MASK) in
  let mag := if Z.testbit y 0 then MATRIX_A else 0 in
  set k i (Z.lxor (Z.lxor (get k m) (Z.shiftr y 1)) mag).

(** mt19937_gen: the block is updated in place from index 0 upwards, so
    the words read at [i + M - N] are already new ones. *)
Fixpoint gen_loop (n : nat) (i : nat) (k : list Z) : list Z :=
  match n with
  | O => k
  | S n' =>
      gen_loop n' (S i)
        (twist k i (Nat.modulo (S i) N) (Nat.modulo (i + M) N))
  end.

Definition gen (s : state) : state := mkState (gen_loop N 0 (key s)) 0.

Definition temper (y : Z) : Z :=
  let y := Z.lxor y (Z.shiftr y 11) in
  let y := Z.lxor y (Z.land (u32 (Z.shiftl y 7)) 0x9d2c5680) in
  let y := Z.lxor y (Z.land (u32 (Z.shiftl y 15)) 0xefc60000) in
  Z.lxor y (Z.shiftr y 18).

(** mt19937_next: regenerate when the block is used up, then temper. *)
Definition next (s : state) : Z * state :=
  let s := if Nat.eqb (pos s) N then gen s else s in
  (temper (get (key s) (pos s)), mkState (key s) (S (pos s))).

End MT19937.

(** ** Outcomes of a call *)

(** The Python exceptions the modelled calls can raise.  A message that
    would print a floating-point number is given without it. *)
Inductive exn : Type :=
| ValueError (msg : string)
| KeyError (key : string)
| NotFittedError (msg : string).

(** A call returns, raises, or (in the model only) exhausts the bound put
    on an unbounded loop of the library. *)
Inductive result (A : Type) : Type :=
| Ok (a : A)
| Raise (e : exn)
| Unbounded.
Arguments Ok {A} a.
Arguments Raise {A} e.
Arguments Unbounded {A}.

(** ** NumPy: [RandomState], [random_interval], [shuffle], [permutation] *)

Module Numpy.

Import MT19937.
Local Open Scope Z_scope.

(** Smallest bit mask covering [max]. *)
Definition interval_mask (max : Z) : Z :=
  let m := max in
  let m := Z.lor m (Z.shiftr m 1) in
  let m := Z.lor m (Z.shiftr m 2) in
  let m := Z.lor m (Z.shiftr m 4) in
  let m := Z.lor m (Z.shiftr m 8) in
  let m := Z.lor m (Z.shiftr m 16) in
  Z.lor m (Z.shiftr m 32).

(** The rejection loop [while ((value = next & mask) > max);], cut after
    [fuel] draws.  Only the 32-bit branch is modelled ([max] below 2^32). *)
Fixpoint interval_loop (fuel : nat) (max mask : Z) (s : state)
  : option (Z * state) :=
  match fuel with
  | O => None
  | S fuel' =>
      let (v, s') := next s in
      let value := Z.land v mask in
      if value >? max then interval_loop fuel' max mask s'
      else Some (value, s')
  end.

Definition random_interval (fuel : nat) (max : Z) (s : state)
  : option (Z * state) :=
  if max =? 0 then Some (0, s)
  else interval_loop fuel max (interval_mask max) s.

Definition swap {A} (d : A) (arr : list A) (i j : nat) : list A :=
  let ai := nth i arr d in
  let aj := nth j arr d in
  map (fun '(k, a) => if Nat.eqb k i then aj else if Nat.eqb k j then ai else a)
      (combine (seq 0 (List.length arr)) arr).

(** [for i in reversed(range(1, n)): j = random_interval(i); swap i j];
    the argument [i] counts down from [n - 1]. *)
Fixpoint shuffle_loop (fuel : nat) (i : nat) (arr : list nat) (s : state)
  : option (list nat * state) :=
  match i with
  | O => Some (arr, s)
  | S i' =>
      match random_interval fuel (Z.of_nat i) s with
      | None => None
      | Some (j, s') => shuffle_loop fuel i' (swap O arr i (Z.to_nat j)) s'
      end
  end.

Definition shuffle (fuel : nat) (arr : list nat) (s : state)
  : option (list nat * state) :=
  shuffle_loop fuel (List.length arr - 1) arr s.

(** [RandomState.permutation(n)]: shuffle [arange(n)]. *)
Definition permutation (fuel : nat) (n : nat) (s : state)
  : option (list nat * state) :=
  shuffle fuel (seq 0 n) s.

(** [RandomState(seed)] for an integer seed. *)
Definition RandomState (seed : Z) : result state :=
  if (seed <? 0) || (0xffffffff <? seed)
  then Raise (ValueError "Seed must be between 0 and 2**32 - 1")
  else Ok (MT19937.seed seed).

End Numpy.

(** ** pandas: frames and series *)

Module Pandas.

(** A Series keeps, for every value, the index label of its row. *)
Definition Series (A : Type) : Type := list (nat * A).

Definition values {A} (s : Series A) : list A := map snd s.

Record DataFrame_t : Type := mkFrame {
  columns : list string;
  rows : list (nat * list string)
}.

(** [pd.DataFrame(data)] for a dict of equally long lists: one column per
    key in insertion order, a fresh range index. *)
Definition DataFrame (data : list (string * list string)) : result DataFrame_t :=
  match data with
  | [] => Ok (mkFrame [] [])
  | (_, c0) :: _ =>
      let n := List.length c0 in
      if forallb (fun kv => Nat.eqb (List.length (snd kv)) n) data
      then Ok (mkFrame (map fst data)
                 (map (fun i => (i, map (fun kv => nth i (snd kv) EmptyString) data))
                      (seq 0 n)))
      else Raise (ValueError "All arrays must be of the same length")
  end.

Fixpoint position (name : string) (cols : list string) : option nat :=
  match cols with
  | [] => None
  | c :: cs => if String.eqb c name then Some O
               else option_map S (position name cs)
  end.

(** [df[name]] *)
Definition getitem (df : DataFrame_t) (name : string) : result (Series string) :=
  match position name (columns df) with
  | Some p => Ok (map (fun r => (fst r, nth p (snd r) EmptyString)) (rows df))
  | None => Raise (KeyError name)
  end.

(** [series.iloc[indices]]: rows by position, labels kept.  The positions
    are those of a permutation of the rows; a position out of range, for
    which pandas raises, is passed over. *)
Definition iloc {A} (s : Series A) (indices : list nat) : Series A :=
  flat_map (fun i => match nth_error s i with Some r => [r] | None => [] end)
           indices.

Definition quote : string := String (ascii_of_nat 34) EmptyString.

Definition special (c : ascii) : bool :=
  let n := nat_of_ascii c in
  Nat.eqb n 44 || Nat.eqb n 34 || Nat.eqb n 10 || Nat.eqb n 13.

Fixpoint needs_quoting (s : string) : bool :=
  match s with
  | EmptyString => false
  | String c s' => special c || needs_quoting s'
  end.

Fixpoint double_quotes (s : string) : string :=
  match s with
  | EmptyString => EmptyString
  | String c s' =>
      if Nat.eqb (nat_of_ascii c) 34
      then String c (String c (double_quotes s'))
      else String c (double_quotes s')
  end.

(** One field under csv.QUOTE_MINIMAL, with the line terminator CR LF of
    the platform the notebook was run on. *)
Definition csv_field (s : string) : string :=
  if needs_quoting s then quote ++ double_quotes s ++ quote else s.

(** One record.  A record made of a single empty field is written as two
    quotes, so that it is not an empty line. *)
Definition csv_line (fields : list string) : string :=
  match fields with
  | [EmptyString] => quote ++ quote
  | _ => String.concat "," (map csv_field fields)
  end.

Fixpoint digits (fuel n : nat) (acc : string) : string :=
  match fuel with
  | O => acc
  | S fuel' =>
      let acc' := String (ascii_of_nat (48 + Nat.modulo n 10)) acc in
      if Nat.eqb (Nat.div n 10) 0 then acc' else digits fuel' (Nat.div n 10) acc'
  end.

Definition str_of_nat (n : nat) : string := digits (S n) n EmptyString.

(** The lines [df.to_csv(path, index=...)] writes: a header line, then a
    line per row; with [index] the index label comes first, under an
    empty header. *)
Definition to_csv_lines (df : DataFrame_t) (index : bool) : list string :=
  let head := if index then EmptyString :: columns df else columns df in
  let line r := if index then str_of_nat (fst r) :: snd r else snd r in
  csv_line head :: map (fun r => csv_line (line r)) (rows df).

End Pandas.

(** ** scikit-learn's checks on the number of samples *)

Module Validation.

(** [check_consistent_length] on two inputs of different lengths. *)
Definition inconsistent {A} (a b : nat) : result A :=
  Raise (ValueError
           ("Found input variables with inconsistent numbers of samples: ["
            ++ Pandas.str_of_nat a ++ ", " ++ Pandas.str_of_nat b ++ "]")).

(** [check_array] on an input without a row, for the named estimator. *)
Definition no_samples {A} (n_cols : nat) (estimator : string) : result A :=
  Raise (ValueError
           ("Found array with 0 sample(s) (shape=(0, " ++ Pandas.str_of_nat n_cols
            ++ ")) while a minimum of 1 is required by " ++ estimator ++ ".")).

End Validation.

(** ** scikit-learn text analysis: lower-casing, tokens, stop words *)

Module Text.

(** The text model is that of ASCII documents, which the emails of the
    notebook are: a character is a code below 128. *)
Definition is_ascii (c : ascii) : bool := Nat.ltb (nat_of_ascii c) 128.

(** [\w] on ASCII text: a letter, a digit or the underscore. *)
Definition is_word_char (c : ascii) : bool :=
  let n := nat_of_ascii c in
  (Nat.leb 48 n && Nat.leb n 57) || (Nat.leb 65 n && Nat.leb n 90)
  || (Nat.leb 97 n && Nat.leb n 122) || Nat.eqb n 95.

(** [str.lower] on ASCII text. *)
Definition lower_char (c : ascii) : ascii :=
  let n := nat_of_ascii c in
  if Nat.leb 65 n && Nat.leb n 90 then ascii_of_nat (n + 32) else c.

Fixpoint lower (s : string) : string :=
  match s with
  | EmptyString => EmptyString
  | String c s' => String (lower_char c) (lower s')
  end.

(** Maximal runs of word characters, [cur] being the run under way. *)
Fixpoint runs (s : string) (cur : string) : list string :=
  match s with
  | EmptyString => [cur]
  | String c s' =>
      if is_word_char c then runs s' (cur ++ String c EmptyString)
      else cur :: runs s' EmptyString
  end.

(** The default token pattern keeps the runs of two characters or more
    (ASCII text only). *)
Definition tokenize (s : string) : list string :=
  filter (fun t => Nat.leb 2 (String.length t)) (runs s EmptyString).

Definition mem (t : string) (l : list string) : bool :=
  existsb (String.eqb t) l.

(** The analyzer of a word-level vectorizer: lower-case, tokenize, drop
    the stop words. *)
Definition analyze (stop : list string) (doc : string) : list string :=
  filter (fun t => negb (mem t stop)) (tokenize (lower doc)).

(** Insertion into a strictly increasing list (code-point order). *)
Fixpoint insert (t : string) (l : list string) : list string :=
  match l with
  | [] => [t]
  | h :: r =>
      match String.compare t h with
      | Lt => t :: l
      | Eq => l
      | Gt => h :: insert t r
      end
  end.

(** [sorted(set(l))] *)
Definition sorted_set (l : list string) : list string :=
  fold_left (fun acc t => insert t acc) l [].

Definition count (t : string) (l : list string) : nat :=
  List.length (filter (String.eqb t) l).

(** The built-in list selected by [stop_words='english']. *)
Definition ENGLISH_STOP_WORDS : list string :=
  ["a"; "about"; "above"; "across"; "after"; "afterwards"; "again";
   "against"; "all"; "almost"; "alone"; "along"; "already"; "also";
   "although"; "always"; "am"; "among"; "amongst"; "amoungst"; "amount";
   "an"; "and"; "another"; "any"; "anyhow"; "anyone"; "anything"; "anyway";
   "anywhere"; "are"; "around"; "as"; "at"; "back"; "be"; "became";
   "because"; "become"; "becomes"; "becoming"; "been"; "before";
   "beforehand"; "behind"; "being"; "below"; "beside"; "besides";
   "between"; "beyond"; "bill"; "both"; "bottom"; "but"; "by"; "call";
   "can"; "cannot"; "cant"; "co"; "con"; "could"; "couldnt"; "cry"; "de";
   "describe"; "detail"; "do"; "done"; "down"; "due"; "during"; "each";
   "eg"; "eight"; "either"; "eleven"; "else"; "elsewhere"; "empty";
   "enough"; "etc"; "even"; "ever"; "every"; "everyone"; "everything";
   "everywhere"; "except"; "few"; "fifteen"; "fifty"; "fill"; "find";
   "fire"; "first"; "five"; "for"; "former"; "formerly"; "forty"; "found";
   "four"; "from"; "front"; "full"; "further"; "get"; "give"; "go"; "had";
   "has"; "hasnt"; "have"; "he"; "hence"; "her"; "here"; "hereafter";
   "hereby"; "herein"; "hereupon"; "hers"; "herself"; "him"; "himself";
   "his"; "how"; "however"; "hundred"; "i"; "ie"; "if"; "in"; "inc";
   "indeed"; "interest"; "into"; "is"; "it"; "its"; "itself"; "keep";
   "last"; "latter"; "latterly"; "least"; "less"; "ltd"; "made"; "many";
   "may"; "me"; "meanwhile"; "might"; "mill"; "mine"; "more"; "moreover";
   "most"; "mostly"; "move"; "much"; "must"; "my"; "myself"; "name";
   "namely"; "neither"; "never"; "nevertheless"; "next"; "nine"; "no";
   "nobody"; "none"; "noone"; "nor"; "not"; "nothing"; "now"; "nowhere";
   "of"; "off"; "often"; "on"; "once"; "one"; "only"; "onto"; "or";
   "other"; "others"; "otherwise"; "our"; "ours"; "ourselves"; "out";
   "over"; "own"; "part"; "per"; "perhaps"; "please"; "put"; "rather";
   "re"; "same"; "see"; "seem"; "seemed"; "seeming"; "seems"; "serious";
   "several"; "she"; "should"; "show"; "side"; "since"; "sincere"; "six";
   "sixty"; "so"; "some"; "somehow"; "someone"; "something"; "sometime";
   "sometimes"; "somewhere"; "still"; "such"; "system"; "take"; "ten";
   "than"; "that"; "the"; "their"; "them"; "themselves"; "then"; "thence";
   "there"; "thereafter"; "thereby"; "therefore"; "therein"; "thereupon";
   "these"; "they"; "thick"; "thin"; "third"; "this"; "those"; "though";
   "three"; "through"; "throughout"; "thru"; "thus"; "to"; "together";
   "too"; "top"; "toward"; "towards"; "twelve"; "twenty"; "two"; "un";
   "under"; "until"; "up"; "upon"; "us"; "very"; "via"; "was"; "we";
   "well"; "were"; "what"; "whatever"; "when"; "whence"; "whenever";
   "where"; "whereafter"; "whereas"; "whereby"; "wherein"; "whereupon";
   "wherever"; "whether"; "which"; "while"; "whither"; "who"; "whoever";
   "whole"; "whom"; "whose"; "why"; "will"; "with"; "within"; "without";
   "would"; "yet"; "you"; "your"; "yours"; "yourself"; "yourselves"].

End Text.

(** ** Dense float matrices (binary64 arithmetic) *)

Module Matrix.

Record t : Type := mk { n_cols : nat; rows : list (list float) }.

Definition shape (m : t) : nat * nat := (List.length (rows m), n_cols m).

Definition of_nat (n : nat) : float :=
  PrimFloat.of_uint63 (Uint63.of_Z (Z.of_nat n)).

(** Sums are taken from left to right. *)
Definition sum (l : list float) : float :=
  fold_left PrimFloat.add l PrimFloat.zero.

Definition dot (a b : list float) : float :=
  sum (map (fun p => PrimFloat.mul (fst p) (snd p)) (combine a b)).

Definition is_nan (x : float) : bool := negb (PrimFloat.eqb x x).

(** Column [j] of a list of rows. *)
Definition column (j : nat) (rs : list (list float)) : list float :=
  map (fun r => nth j r PrimFloat.zero) rs.

(** [np.argmax]: the first index whose value is not below any other; a
    NaN, once met, is the maximum.  [i] is the index of [x], [bi] and [b]
    the best so far. *)
Fixpoint argmax_from (l : list float) (i bi : nat) (b : float) : nat :=
  match l with
  | [] => bi
  | x :: r =>
      if is_nan b then bi
      else if PrimFloat.leb x b then argmax_from r (S i) bi b
      else argmax_from r (S i) i x
  end.

Definition argmax (l : list float) : nat :=
  match l with
  | [] => O
  | x :: r => argmax_from r 1 O x
  end.

End Matrix.

(** ** scikit-learn: [TfidfVectorizer] *)

Module TfidfVectorizer.

Record t : Type := mk {
  stop_words : string;
  max_features : option nat;
  (** [vocabulary_] and [idf_] exist once fitted. *)
  vocabulary_ : option (list string);
  idf_ : list float
}.

(** [TfidfVectorizer(stop_words=..., max_features=...)]: the parameters
    are only stored; they are checked when fitting. *)
Definition init (stop : string) (k : option nat) : t := mk stop k None [].

(** [_check_stop_list] for a string argument. *)
Definition get_stop_words (stop : string) : result (list string) :=
  if String.eqb stop "english" then Ok Text.ENGLISH_STOP_WORDS
  else Raise (ValueError ("not a built-in stop list: " ++ stop)).

(** One row of term counts over a vocabulary. *)
Definition count_row (vocab : list string) (tokens : list string) : list nat :=
  map (fun t => Text.count t tokens) vocab.

(** Document frequency of every term. *)
Definition document_frequency (vocab : list string) (docs : list (list string))
  : list nat :=
  map (fun t => List.length (filter (Text.mem t) docs)) vocab.

Definition term_frequency (vocab : list string) (docs : list (list string))
  : list nat :=
  map (fun t => Text.count t (List.concat docs)) vocab.

(** The [k] terms of highest total count; among equal counts the earlier
    term is kept first, as a stable sort does (NumPy's [argsort] promises
    no order among equal counts). *)
Fixpoint insert_desc (p : nat * string) (l : list (nat * string))
  : list (nat * string) :=
  match l with
  | [] => [p]
  | q :: r => if Nat.ltb (fst q) (fst p) then p :: l else q :: insert_desc p r
  end.

Definition top_terms (k : nat) (vocab : list string) (docs : list (list string))
  : list string :=
  let ranked := fold_left (fun acc p => insert_desc p acc)
                  (combine (term_frequency vocab docs) vocab) [] in
  Text.sorted_set (map snd (firstn k ranked)).

(** [_limit_features]: only when the vocabulary exceeds [max_features]. *)
Definition limit_features (k : option nat) (vocab : list string)
    (docs : list (list string)) : list string :=
  match k with
  | Some k => if Nat.ltb k (List.length vocab) then top_terms k vocab docs
              else vocab
  | None => vocab
  end.

Section WithLog.

(** The C library's natural logarithm on binary64. *)
Variable log : float -> float.

(** Smoothed idf: [ln((1 + n) / (1 + df)) + 1]. *)
Definition idf (n df : nat) : float :=
  PrimFloat.add
    (log (PrimFloat.div (Matrix.of_nat (1 + n)) (Matrix.of_nat (1 + df))))
    PrimFloat.one.

(** L2 normalisation of a row; a zero row is left as it is. *)
Definition normalize (row : list float) : list float :=
  let norm := PrimFloat.sqrt (Matrix.dot row row) in
  if PrimFloat.eqb norm PrimFloat.zero then row
  else map (fun x => PrimFloat.div x norm) row.

Definition tfidf_row (vocab : list string) (idfs : list float)
    (tokens : list string) : list float :=
  normalize (map (fun p => PrimFloat.mul (Matrix.of_nat (fst p)) (snd p))
                 (combine (count_row vocab tokens) idfs)).

Definition fit_transform (v : t) (raw_documents : list string)
  : result (t * Matrix.t) :=
  match max_features v with
  | Some O => Raise (ValueError
                "The 'max_features' parameter of TfidfVectorizer must be an int in the range [1, inf) or None. Got 0 instead.")
  | _ =>
  match get_stop_words (stop_words v) with
  | Raise e => Raise e
  | Unbounded => Unbounded
  | Ok stop =>
  let docs := map (Text.analyze stop) raw_documents in
  match Text.sorted_set (List.concat docs) with
  | [] => Raise (ValueError
            "empty vocabulary; perhaps the documents only contain stop words")
  | vocab0 =>
      let vocab := limit_features (max_features v) vocab0 docs in
      let idfs := map (idf (List.length docs)) (document_frequency vocab docs) in
      Ok (mk (stop_words v) (max_features v) (Some vocab) idfs,
          Matrix.mk (List.length vocab) (map (tfidf_row vocab idfs) docs))
  end end end.

(** [tfidf.transform(raw_documents)]: the counts over the fitted
    vocabulary, then the weighting, which wants at least one row. *)
Definition transform (v : t) (raw_documents : list string) : result Matrix.t :=
  match vocabulary_ v with
  | None => Raise (NotFittedError "The TF-IDF vectorizer is not fitted")
  | Some vocab =>
      match get_stop_words (stop_words v) with
      | Raise e => Raise e
      | Unbounded => Unbounded
      | Ok stop =>
          let docs := map (Text.analyze stop) raw_documents in
          if Nat.eqb (List.length docs) 0
          then Validation.no_samples (List.length vocab) "TfidfTransformer"
          else Ok (Matrix.mk (List.length vocab)
                     (map (tfidf_row vocab (idf_ v)) docs))
      end
  end.

End WithLog.

End TfidfVectorizer.

(** ** scikit-learn: [MultinomialNB] *)

Module MultinomialNB.

Record params : Type := mkParams {
  classes_ : list string;
  n_features_in_ : nat;
  feature_log_prob_ : list (list float);
  class_log_prior_ : list float
}.

Record t : Type := mk { alpha : float; fitted : option params }.

(** [MultinomialNB()]: additive smoothing 1.0, not fitted. *)
Definition init : t := mk PrimFloat.one None.

(** Row [c] of [Y.T @ X] for the one-hot [Y]: the sum of the rows of [X]
    whose label is the class, feature by feature. *)
Definition feature_count (n_features : nat) (X : list (list float))
    (y : list string) (c : string) : list float :=
  map (fun j =>
         Matrix.sum (map (fun p => if String.eqb (snd p) c
                                   then nth j (fst p) PrimFloat.zero
                                   else PrimFloat.zero)
                         (combine X y)))
      (seq 0 n_features).

Definition class_count (y : list string) (c : string) : float :=
  Matrix.of_nat (Text.count c y).

Section WithLog.

Variable log : float -> float.

(** [log(fc + alpha) - log(sum(fc + alpha))], one row per class. *)
Definition update_feature_log_prob (a : float) (fc : list float)
  : list float :=
  let smoothed := map (fun x => PrimFloat.add x a) fc in
  let total := Matrix.sum smoothed in
  map (fun x => PrimFloat.sub (log x) (log total)) smoothed.

Definition update_class_log_prior (cc : list float) : list float :=
  let total := Matrix.sum cc in
  map (fun x => PrimFloat.sub (log x) (log total)) cc.

(** [model.fit(X, y)].  Of the input validation the checks on the number
    of samples are modelled; the checks on the values (finite and
    non-negative entries, at least one column, [alpha] not negative), under
    which scikit-learn refuses more inputs, are not. *)
Definition fit (m : t) (X : Matrix.t) (y : list string) : result t :=
  if Nat.eqb (List.length (Matrix.rows X)) 0
  then Validation.no_samples (Matrix.n_cols X) "MultinomialNB"
  else if negb (Nat.eqb (List.length (Matrix.rows X)) (List.length y))
  then Validation.inconsistent (List.length (Matrix.rows X)) (List.length y)
  else
    let classes := Text.sorted_set y in
    let fc := map (feature_count (Matrix.n_cols X) (Matrix.rows X) y) classes in
    let cc := map (class_count y) classes in
    Ok (mk (alpha m)
          (Some (mkParams classes (Matrix.n_cols X)
                   (map (update_feature_log_prob (alpha m)) fc)
                   (update_class_log_prior cc)))).

(** [X @ feature_log_prob_.T + class_log_prior_] for one row. *)
Definition joint_log_likelihood (p : params) (row : list float)
  : list float :=
  map (fun q => PrimFloat.add (Matrix.dot row (fst q)) (snd q))
      (combine (feature_log_prob_ p) (class_log_prior_ p)).

(** [model.predict(X)]: [classes_[argmax(jll, axis=1)]]. *)
Definition predict (m : t) (X : Matrix.t) : result (list string) :=
  match fitted m with
  | None => Raise (NotFittedError
              "This MultinomialNB instance is not fitted yet. Call 'fit' with appropriate arguments before using this estimator.")
  | Some p =>
      if Nat.eqb (List.length (Matrix.rows X)) 0
      then Validation.no_samples (Matrix.n_cols X) "MultinomialNB"
      else if negb (Nat.eqb (Matrix.n_cols X) (n_features_in_ p))
      then Raise (ValueError
             ("X has " ++ Pandas.str_of_nat (Matrix.n_cols X)
              ++ " features, but MultinomialNB is expecting "
              ++ Pandas.str_of_nat (n_features_in_ p) ++ " features as input."))
      else Ok (map (fun row =>
                      nth (Matrix.argmax (joint_log_likelihood p row))
                          (classes_ p) EmptyString)
                   (Matrix.rows X))
  end.

End WithLog.

End MultinomialNB.

(** ** scikit-learn: [train_test_split] *)

Module ModelSelection.

Import Pandas.
Local Open Scope Z_scope.

(** [math.ceil] of a binary64 number; infinities and NaN have none. *)
Definition ceil (x : float) : option Z :=
  match Prim2SF x with
  | S754_zero _ => Some 0
  | S754_finite sign m e =>
      if 0 <=? e then Some ((if sign then -1 else 1) * (Z.pos m * 2 ^ e))
      else if sign then Some (- (Z.pos m / 2 ^ (- e)))
      else Some (- ((- Z.pos m) / 2 ^ (- e)))
  | _ => None
  end.

(** [_validate_shuffle_split] for a float [test_size] and no
    [train_size]: the sizes [(n_train, n_test)]. *)
Definition validate_shuffle_split (n_samples : nat) (test_size : float)
  : result (nat * nat) :=
  if PrimFloat.leb test_size PrimFloat.zero || PrimFloat.leb PrimFloat.one test_size
  then Raise (ValueError "test_size should be a float in the (0, 1) range")
  else
    match ceil (PrimFloat.mul test_size (Matrix.of_nat n_samples)) with
    | None => Raise (ValueError "cannot convert float to integer")
    | Some n_test =>
        let n_train := Z.of_nat n_samples - n_test in
        if n_train =? 0
        then Raise (ValueError "the resulting train set will be empty")
        else Ok (Z.to_nat n_train, Z.to_nat n_test)
    end.

(** [ShuffleSplit]: the first [n_test] entries of a permutation of the
    row positions are the test rows, the next [n_train] the train rows. *)
Definition shuffle_split (n_train n_test : nat) (perm : list nat)
  : list nat * list nat :=
  (firstn n_train (skipn n_test perm), firstn n_test perm).

Record split (A B : Type) : Type := mkSplit {
  X_train : Series A; X_test : Series A;
  y_train : Series B; y_test : Series B
}.
Arguments mkSplit {A B}.
Arguments X_train {A B}.
Arguments X_test {A B}.
Arguments y_train {A B}.
Arguments y_test {A B}.

(** [train_test_split(X, y, test_size=..., random_state=...)].  An integer
    [random_state] seeds a generator of its own; with [None] the global
    NumPy generator, here [global], is used and advanced.  [fuel] bounds
    the draws of each rejection loop. *)
Definition train_test_split {A B} (fuel : nat) (X : Series A) (y : Series B)
    (test_size : float) (random_state : option Z) (global : MT19937.state)
  : MT19937.state * result (split A B) :=
  if negb (Nat.eqb (List.length X) (List.length y))
  then (global, Validation.inconsistent (List.length X) (List.length y))
  else
    match validate_shuffle_split (List.length X) test_size with
    | Raise e => (global, Raise e)
    | Unbounded => (global, Unbounded)
    | Ok (n_train, n_test) =>
        let rng := match random_state with
                   | Some seed => Numpy.RandomState seed
                   | None => Ok global
                   end in
        match rng with
        | Raise e => (global, Raise e)
        | Unbounded => (global, Unbounded)
        | Ok s =>
            match Numpy.permutation fuel (List.length X) s with
            | None => (global, Unbounded)
            | Some (perm, s') =>
                let (train, test) := shuffle_split n_train n_test perm in
                (match random_state with Some _ => global | None => s' end,
                 Ok (mkSplit (iloc X train) (iloc X test)
                             (iloc y train) (iloc y test)))
            end
        end
    end.

End ModelSelection.

(** ** scikit-learn: metrics *)

Module Metrics.

(** [unique_labels(y_true, y_pred)]: the sorted labels of both. *)
Definition unique_labels (y_true y_pred : list string) : list string :=
  Text.sorted_set (y_true ++ y_pred).

(** Number of samples with true label [a] and predicted label [b]. *)
Definition cell (y_true y_pred : list string) (a b : string) : nat :=
  List.length (filter (fun p => String.eqb (fst p) a && String.eqb (snd p) b)
                      (combine y_true y_pred)).

(** [accuracy_score]: the fraction of equal positions. *)
Definition accuracy_score (y_true y_pred : list string) : result float :=
  if negb (Nat.eqb (List.length y_true) (List.length y_pred))
  then Validation.inconsistent (List.length y_true) (List.length y_pred)
  else
    let hits := List.length (filter (fun p => String.eqb (fst p) (snd p))
                                    (combine y_true y_pred)) in
    Ok (PrimFloat.div (Matrix.of_nat hits) (Matrix.of_nat (List.length y_true))).

(** [confusion_matrix]: rows are true labels, columns predicted labels,
    both in sorted order. *)
Definition confusion_matrix (y_true y_pred : list string)
  : result (list (list nat)) :=
  if negb (Nat.eqb (List.length y_true) (List.length y_pred))
  then Validation.inconsistent (List.length y_true) (List.length y_pred)
  else
    let labels := unique_labels y_true y_pred in
    Ok (map (fun a => map (cell y_true y_pred a) labels) labels).

(** A quotient of counts, 0.0 where the denominator is zero. *)
Definition ratio (a b : nat) : float :=
  if Nat.eqb b 0 then PrimFloat.zero
  else PrimFloat.div (Matrix.of_nat a) (Matrix.of_nat b).

Record report_row : Type := mkRow {
  name : string;
  precision : float;
  recall : float;
  f1_score : float;
  support : nat
}.

(** Precision, recall and F1 of one label, from the counts: F1 is
    [2 tp / (true + predicted)]. *)
Definition row_of (y_true y_pred : list string) (label target : string)
  : report_row :=
  let tp := cell y_true y_pred label label in
  let p := ratio tp (Text.count label y_pred) in
  let r := ratio tp (Text.count label y_true) in
  let f1 := ratio (2 * tp) (Text.count label y_true + Text.count label y_pred) in
  mkRow target p r f1 (Text.count label y_true).

Record report : Type := mkReport {
  per_class : list report_row;
  accuracy : float;
  total : nat
}.

(** [classification_report(y_true, y_pred, target_names=...)]: the
    display names are matched with the sorted labels met in the data, and
    their numbers must agree.  The averaged lines are not modelled. *)
Definition classification_report (y_true y_pred target_names : list string)
  : result report :=
  if negb (Nat.eqb (List.length y_true) (List.length y_pred))
  then Validation.inconsistent (List.length y_true) (List.length y_pred)
  else
    let labels := unique_labels y_true y_pred in
    if negb (Nat.eqb (List.length labels) (List.length target_names))
    then Raise (ValueError
           ("Number of classes, " ++ Pandas.str_of_nat (List.length labels)
            ++ ", does not match size of target_names, "
            ++ Pandas.str_of_nat (List.length target_names)
            ++ ". Try specifying the labels parameter"))
    else
      let hits := List.length (filter (fun p => String.eqb (fst p) (snd p))
                                      (combine y_true y_pred)) in
      Ok (mkReport
            (map (fun p => row_of y_true y_pred (fst p) (snd p))
                 (combine labels target_names))
            (ratio hits (List.length y_true))
            (List.length y_true)).

End Metrics.

(** ** The world a run acts on *)

(** What one [print] argument shows; numbers and tables are kept as values
    rather than rendered. *)
Inductive printed : Type :=
| PText (s : string)
| PFrame (df : Pandas.DataFrame_t)
| PShape (s : nat * nat)
| PLabels (l : list string)
| PFixed2 (x : float)
| PReport (r : Metrics.report).

Record heat : Type := mkHeat {
  cells : list (list nat);
  annot : bool;
  fmt : string;
  cmap : string;
  xticklabels : list string;
  yticklabels : list string
}.

Record figure : Type := mkFigure {
  figsize : nat * nat;
  heatmap : option heat;
  title : option string;
  xlabel : option string;
  ylabel : option string
}.

Record world : Type := mkWorld {
  (** the global generator behind [np.random] *)
  np_random : MT19937.state;
  (** lines printed, oldest first *)
  stdout : list (list printed);
  (** files written: path and lines, oldest first *)
  files : list (string * list string);
  (** pyplot's open figures, the current one last *)
  open_figures : list figure;
  (** figures displayed by [plt.show()] *)
  displayed : list figure
}.

(** A library call acts on the world and returns, raises or is cut. *)
Definition Lib (A : Type) : Type := world -> world * result A.

(** ** The script monad: world, log of calls, exceptions *)

Inductive callee : Type :=
| at_seed | at_DataFrame | at_print | at_to_csv | at_getitem
| at_train_test_split | at_TfidfVectorizer | at_fit_transform | at_transform
| at_MultinomialNB | at_fit | at_predict
| at_accuracy_score | at_classification_report | at_confusion_matrix
| at_figure | at_heatmap | at_title | at_xlabel | at_ylabel | at_show.

Inductive outcome : Type :=
| Returned
| Raised (e : exn)
| Cut.

Definition event : Type := (callee * outcome)%type.

Definition outcome_of {A} (r : result A) : outcome :=
  match r with
  | Ok _ => Returned
  | Raise e => Raised e
  | Unbounded => Cut
  end.

Definition M (A : Type) : Type :=
  list event -> world -> (list event * world) * result A.

Definition ret {A} (a : A) : M A := fun tr w => ((tr, w), Ok a).

(** Sequencing: a statement that raises ends the run; nothing in the
    notebook catches an exception. *)
Definition bind {A B} (m : M A) (k : A -> M B) : M B :=
  fun tr w =>
    match m tr w with
    | ((tr', w'), Ok a) => k a tr' w'
    | ((tr', w'), Raise e) => ((tr', w'), Raise e)
    | ((tr', w'), Unbounded) => ((tr', w'), Unbounded)
    end.

(** A library call, logged with its outcome. *)
Definition call {A} (c : callee) (op : Lib A) : M A :=
  fun tr w =>
    let (w', r) := op w in ((List.app tr [(c, outcome_of r)], w'), r).

Notation "x <- m ;; k" := (bind m (fun x => k))
  (at level 61, m at next level, right associativity).
Notation "m ;;; k" := (bind m (fun _ => k))
  (at level 61, right associativity).

(** [for x in l: body(x)] *)
Fixpoint for_each {A} (l : list A) (body : A -> M unit) : M unit :=
  match l with
  | [] => ret tt
  | x :: r => body x ;;; for_each r body
  end.

(** ** The library interface the notebook is written against *)

Record library : Type := mkLibrary {
  np_random_seed : Z -> Lib unit;
  pd_DataFrame : list (string * list string) -> Lib Pandas.DataFrame_t;
  print : list printed -> Lib unit;
  to_csv : Pandas.DataFrame_t -> string -> bool -> Lib unit;
  getitem : Pandas.DataFrame_t -> string -> Lib (Pandas.Series string);
  train_test_split :
    Pandas.Series string -> Pandas.Series string -> float -> option Z ->
    Lib (ModelSelection.split string string);
  TfidfVectorizer : string -> option nat -> Lib TfidfVectorizer.t;
  fit_transform :
    TfidfVectorizer.t -> list string -> Lib (TfidfVectorizer.t * Matrix.t);
  transform : TfidfVectorizer.t -> list string -> Lib Matrix.t;
  MultinomialNB : Lib MultinomialNB.t;
  fit : MultinomialNB.t -> Matrix.t -> list string -> Lib MultinomialNB.t;
  predict : MultinomialNB.t -> Matrix.t -> Lib (list string);
  accuracy_score : list string -> list string -> Lib float;
  classification_report :
    list string -> list string -> list string -> Lib Metrics.report;
  confusion_matrix : list string -> list string -> Lib (list (list nat));
  plt_figure : nat * nat -> Lib unit;
  sns_heatmap : heat -> Lib unit;
  plt_title : string -> Lib unit;
  plt_xlabel : string -> Lib unit;
  plt_ylabel : string -> Lib unit;
  plt_show : Lib unit
}.

(** A call that only computes. *)
Definition pure {A} (r : result A) : Lib A := fun w => (w, r).

(** pyplot acts on the current figure and opens one when there is none. *)
Definition blank : figure := mkFigure (6, 4)%nat None None None None.

Definition on_current (f : figure -> figure) : Lib unit :=
  fun w =>
    let figs := match rev (open_figures w) with
                | [] => [f blank]
                | cur :: older => rev (f cur :: older)
                end in
    (mkWorld (np_random w) (stdout w) (files w) figs (displayed w), Ok tt).

(** The libraries as modelled above; [log] is the C logarithm and [fuel]
    bounds the rejection loops of the generator. *)
Definition sklearn (log : float -> float) (fuel : nat) : library := {|
  np_random_seed := fun s w =>
    match Numpy.RandomState s with
    | Ok st => (mkWorld st (stdout w) (files w) (open_figures w) (displayed w),
                Ok tt)
    | Raise e => (w, Raise e)
    | Unbounded => (w, Unbounded)
    end;
  pd_DataFrame := fun data => pure (Pandas.DataFrame data);
  print := fun line w =>
    (mkWorld (np_random w) (List.app (stdout w) [line]) (files w)
             (open_figures w) (displayed w), Ok tt);
  to_csv := fun df path index w =>
    (mkWorld (np_random w) (stdout w)
             (List.app (files w) [(path, Pandas.to_csv_lines df index)])
             (open_figures w) (displayed w), Ok tt);
  getitem := fun df name => pure (Pandas.getitem df name);
  train_test_split := fun X y test_size random_state w =>
    let (g, r) := ModelSelection.train_test_split fuel X y test_size
                    random_state (np_random w) in
    (mkWorld g (stdout w) (files w) (open_figures w) (displayed w), r);
  TfidfVectorizer := fun stop k => pure (Ok (TfidfVectorizer.init stop k));
  fit_transform := fun v docs => pure (TfidfVectorizer.fit_transform log v docs);
  transform := fun v docs => pure (TfidfVectorizer.transform v docs);
  MultinomialNB := pure (Ok MultinomialNB.init);
  fit := fun m X y => pure (MultinomialNB.fit log m X y);
  predict := fun m X => pure (MultinomialNB.predict m X);
  accuracy_score := fun a b => pure (Metrics.accuracy_score a b);
  classification_report := fun a b names =>
    pure (Metrics.classification_report a b names);
  confusion_matrix := fun a b => pure (Metrics.confusion_matrix a b);
  plt_figure := fun size w =>
    (mkWorld (np_random w) (stdout w) (files w)
             (List.app (open_figures w) [mkFigure size None None None None])
             (displayed w), Ok tt);
  sns_heatmap := fun h =>
    on_current (fun f => mkFigure (figsize f) (Some h) (title f) (xlabel f) (ylabel f));
  plt_title := fun s =>
    on_current (fun f => mkFigure (figsize f) (heatmap f) (Some s) (xlabel f) (ylabel f));
  plt_xlabel := fun s =>
    on_current (fun f => mkFigure (figsize f) (heatmap f) (title f) (Some s) (ylabel f));
  plt_ylabel := fun s =>
    on_current (fun f => mkFigure (figsize f) (heatmap f) (title f) (xlabel f) (Some s));
  plt_show := fun w =>
    (mkWorld (np_random w) (stdout w) (files w) []
             (List.app (displayed w) (open_figures w)), Ok tt)
|}.

(** ** The notebook *)

(** The variables bound when the last cell has run. *)
Record namespace : Type := mkNamespace {
  data : list (string * list string);
  df : Pandas.DataFrame_t;
  X : Pandas.Series string;
  y : Pandas.Series string;
  X_train : Pandas.Series string;
  X_test : Pandas.Series string;
  y_train : Pandas.Series string;
  y_test : Pandas.Series string;
  tfidf : TfidfVectorizer.t;
  X_train_tfidf : Matrix.t;
  X_test_tfidf : Matrix.t;
  model : MultinomialNB.t;
  y_pred : list string;
  accuracy : float;
  cm : list (list nat);
  new_emails : list string;
  new_emails_tfidf : Matrix.t;
  new_predictions : list string
}.

(** The literal [0.3], that is the binary64 number nearest to it. *)
Definition test_size : float := 0x1.3333333333333p-2%float.

Definition the_data : list (string * list string) :=
  [("email",
    ["win a free prize now click here";
     "meeting at 10am tomorrow";
     "urgent money transfer needed";
     "hello how are you today";
     "claim your lottery winnings";
     "project update for team";
     "buy cheap products online now";
     "lunch plans this afternoon";
     "exclusive offer just for you";
     "review the attached document"]);
   ("label",
    ["spam"; "ham"; "spam"; "ham"; "spam"; "ham"; "spam"; "ham"; "spam"; "ham"])].

Definition the_new_emails : list string :=
  ["win cash now click this link";
   "team meeting at 3pm";
   "urgent offer expires soon"].

Section Notebook.

Variable L : library.

(** A Series handed to scikit-learn is read as the sequence of its
    values. *)
Definition notebook : M namespace :=
  (* cell 1 *)
  call at_seed (np_random_seed L 42) ;;;
  (* cell 2 *)
  let data := the_data in
  df <- call at_DataFrame (pd_DataFrame L data) ;;
  call at_print (print L [PText "Sample Dataset:"]) ;;;
  call at_print (print L [PFrame df]) ;;;
  call at_to_csv (to_csv L df "spam_email_data.csv" false) ;;;
  (* cell 3 *)
  X <- call at_getitem (getitem L df "email") ;;
  y <- call at_getitem (getitem L df "label") ;;
  s <- call at_train_test_split
         (train_test_split L X y test_size (Some 42%Z)) ;;
  let X_train := ModelSelection.X_train s in
  let X_test := ModelSelection.X_test s in
  let y_train := ModelSelection.y_train s in
  let y_test := ModelSelection.y_test s in
  tfidf <- call at_TfidfVectorizer (TfidfVectorizer L "english" (Some 100%nat)) ;;
  fitted <- call at_fit_transform (fit_transform L tfidf (Pandas.values X_train)) ;;
  let tfidf := fst fitted in
  let X_train_tfidf := snd fitted in
  X_test_tfidf <- call at_transform (transform L tfidf (Pandas.values X_test)) ;;
  call at_print (print L [PText "Training data shape: ";
                          PShape (Matrix.shape X_train_tfidf)]) ;;;
  call at_print (print L [PText "Testing data shape: ";
                          PShape (Matrix.shape X_test_tfidf)]) ;;;
  (* cell 4 *)
  model <- call at_MultinomialNB (MultinomialNB L) ;;
  model <- call at_fit (fit L model X_train_tfidf (Pandas.values y_train)) ;;
  y_pred <- call at_predict (predict L model X_test_tfidf) ;;
  call at_print (print L [PText "Predictions on test set:"; PLabels y_pred]) ;;;
  (* cell 5 *)
  accuracy <- call at_accuracy_score (accuracy_score L (Pandas.values y_test) y_pred) ;;
  call at_print (print L [PText "Accuracy: "; PFixed2 accuracy]) ;;;
  call at_print (print L [PText (String (ascii_of_nat 10) "Classification Report:")]) ;;;
  rep <- call at_classification_report
           (classification_report L (Pandas.values y_test) y_pred ["ham"; "spam"]) ;;
  call at_print (print L [PReport rep]) ;;;
  cm <- call at_confusion_matrix (confusion_matrix L (Pandas.values y_test) y_pred) ;;
  call at_figure (plt_figure L (6, 4)%nat) ;;;
  call at_heatmap (sns_heatmap L (mkHeat cm true "d" "Blues"
                                    ["ham"; "spam"] ["ham"; "spam"])) ;;;
  call at_title (plt_title L "Confusion Matrix") ;;;
  call at_xlabel (plt_xlabel L "Predicted") ;;;
  call at_ylabel (plt_ylabel L "Actual") ;;;
  call at_show (plt_show L) ;;;
  (* cell 6 *)
  let new_emails := the_new_emails in
  new_emails_tfidf <- call at_transform (transform L tfidf new_emails) ;;
  new_predictions <- call at_predict (predict L model new_emails_tfidf) ;;
  for_each (combine new_emails new_predictions)
    (fun p => call at_print
                (print L [PText ("Email: '" ++ fst p ++ "' -> Predicted: "
                                 ++ snd p)])) ;;;
  ret (mkNamespace data df X y X_train X_test y_train y_test tfidf
         X_train_tfidf X_test_tfidf model y_pred accuracy cm
         new_emails new_emails_tfidf new_predictions).

End Notebook.

(** ** What a run with the modelled libraries leaves behind *)

(** The library calls of a run that reaches the end, in order. *)
Definition calls : list callee :=
  [at_seed;
   at_DataFrame; at_print; at_print; at_to_csv;
   at_getitem; at_getitem; at_train_test_split; at_TfidfVectorizer;
   at_fit_transform; at_transform; at_print; at_print;
   at_MultinomialNB; at_fit; at_predict; at_print;
   at_accuracy_score; at_print; at_print; at_classification_report; at_print;
   at_confusion_matrix; at_figure; at_heatmap; at_title; at_xlabel; at_ylabel;
   at_show;
   at_transform; at_predict; at_print; at_print; at_print].

(** How the variables of the notebook are computed from one another. *)
Record dataflow (log : float -> float) (ns : namespace) : Prop := mkDataflow {
  flow_data : data ns = the_data;
  flow_df : Pandas.DataFrame (data ns) = Ok (df ns);
  flow_X : Pandas.getitem (df ns) "email" = Ok (X ns);
  flow_y : Pandas.getitem (df ns) "label" = Ok (y ns);
  flow_X_train : X_train ns = Pandas.iloc (X ns) [0; 7; 2; 9; 4; 3; 6];
  flow_X_test : X_test ns = Pandas.iloc (X ns) [8; 1; 5];
  flow_y_train : y_train ns = Pandas.iloc (y ns) [0; 7; 2; 9; 4; 3; 6];
  flow_y_test : y_test ns = Pandas.iloc (y ns) [8; 1; 5];
  flow_fit_transform :
    TfidfVectorizer.fit_transform log
      (TfidfVectorizer.init "english" (Some 100)) (Pandas.values (X_train ns))
    = Ok (tfidf ns, X_train_tfidf ns);
  flow_transform :
    TfidfVectorizer.transform (tfidf ns) (Pandas.values (X_test ns))
    = Ok (X_test_tfidf ns);
  flow_fit :
    MultinomialNB.fit log MultinomialNB.init (X_train_tfidf ns)
      (Pandas.values (y_train ns))
    = Ok (model ns);
  flow_predict : MultinomialNB.predict (model ns) (X_test_tfidf ns) = Ok (y_pred ns);
  flow_accuracy :
    Metrics.accuracy_score (Pandas.values (y_test ns)) (y_pred ns)
    = Ok (accuracy ns);
  flow_cm :
    Metrics.confusion_matrix (Pandas.values (y_test ns)) (y_pred ns) = Ok (cm ns);
  flow_new_emails : new_emails ns = the_new_emails;
  flow_new_transform :
    TfidfVectorizer.transform (tfidf ns) (new_emails ns) = Ok (new_emails_tfidf ns);
  flow_new_predict :
    MultinomialNB.predict (model ns) (new_emails_tfidf ns)
    = Ok (new_predictions ns)
}.

(** The lines printed by a run, given the report of its fifth cell. *)
Definition output (ns : namespace) (rep : Metrics.report) : list (list printed) :=
  [[PText "Sample Dataset:"];
   [PFrame (df ns)];
   [PText "Training data shape: "; PShape (Matrix.shape (X_train_tfidf ns))];
   [PText "Testing data shape: "; PShape (Matrix.shape (X_test_tfidf ns))];
   [PText "Predictions on test set:"; PLabels (y_pred ns)];
   [PText "Accuracy: "; PFixed2 (accuracy ns)];
   [PText (String (ascii_of_nat 10) "Classification Report:")];
   [PReport rep]]
  ++ map (fun p => [PText ("Email: '" ++ fst p ++ "' -> Predicted: " ++ snd p)])
         (combine (new_emails ns) (new_predictions ns)).

Definition chart (ns : namespace) : figure :=
  mkFigure (6, 4)
    (Some (mkHeat (cm ns) true "d" "Blues" ["ham"; "spam"] ["ham"; "spam"]))
    (Some "Confusion Matrix") (Some "Predicted") (Some "Actual").

(** The world after a run that started in [w]. *)
Definition effects (ns : namespace) (rep : Metrics.report) (w : world) : world :=
  mkWorld (MT19937.seed 42)
    (List.app (stdout w) (output ns rep))
    (List.app (files w)
       [("spam_email_data.csv", Pandas.to_csv_lines (df ns) false)])
    []
    (List.app (displayed w) (List.app (open_figures w) [chart ns])).

(** What holds of the fitted objects and of the predictions, whatever the
    logarithm computes. *)
Record summary (ns : namespace) : Prop := mkSummary {
  sum_vocabulary :
    TfidfVectorizer.vocabulary_ (tfidf ns)
    = Some (Text.sorted_set
              (List.concat (map (Text.analyze Text.ENGLISH_STOP_WORDS)
                                (Pandas.values (X_train ns)))));
  sum_train_shape : Matrix.shape (X_train_tfidf ns) = (7, 23);
  sum_test_shape : Matrix.shape (X_test_tfidf ns) = (3, 23);
  sum_new_shape : Matrix.shape (new_emails_tfidf ns) = (3, 23);
  sum_classes :
    exists p, MultinomialNB.fitted (model ns) = Some p
              /\ MultinomialNB.classes_ p
                 = Text.sorted_set (Pandas.values (y_train ns))
              /\ MultinomialNB.classes_ p = ["ham"; "spam"]
              /\ MultinomialNB.n_features_in_ p = 23;
  sum_y_pred :
    List.length (y_pred ns) = 3
    /\ Forall (fun c => In c ["ham"; "spam"]) (y_pred ns);
  sum_new_predictions :
    List.length (new_predictions ns) = 3
    /\ Forall (fun c => In c ["ham"; "spam"]) (new_predictions ns)
}.

(** ** Observing a run *)

Definition trace_of {A} (r : (list event * world) * result A) : list event :=
  fst (fst r).

Definition world_of {A} (r : (list event * world) * result A) : world :=
  snd (fst r).

Definition value_of {A} (r : (list event * world) * result A) : result A :=
  snd r.

(** A world in which nothing has been printed, written or drawn; [g] is
    the state of the global generator. *)
Definition start (g : MT19937.state) : world := mkWorld g [] [] [] [].

Definition callee_eq_dec (a b : callee) : {a = b} + {a <> b}.
Proof. decide equality. Defined.

Fixpoint first_index (c : callee) (l : list callee) : option nat :=
  match l with
  | [] => None
  | x :: r => if callee_eq_dec x c then Some O
              else option_map S (first_index c r)
  end.

(** Both calls are made, and the first [a] comes before the first [b]. *)
Definition happens_before (a b : callee) (l : list callee) : bool :=
  match first_index a l, first_index b l with
  | Some i, Some j => Nat.ltb i j
  | _, _ => false
  end.

(** [sub] occurs in [l] in this order, other calls allowed in between. *)
Fixpoint in_order (sub l : list callee) : bool :=
  match sub, l with
  | [], _ => true
  | _ :: _, [] => false
  | s :: sub', x :: l' =>
      if callee_eq_dec s x then in_order sub' l' else in_order sub l'
  end.

(** The events [evs] of a run agree with its result [r]: every call
    returned, except that a run which raises [e] ends with the call that
    raised [e], and a cut run with the call that was cut. *)
Definition returned (ev : event) : Prop := snd ev = Returned.

Definition faithful {A} (evs : list event) (r : result A) : Prop :=
  match r with
  | Ok _ => Forall returned evs
  | Raise e => exists pre c, evs = List.app pre [(c, Raised e)] /\ Forall returned pre
  | Unbounded => exists pre c, evs = List.app pre [(c, Cut)] /\ Forall returned pre
  end.

(** A computation that stops at the first call that does not return and
    hands its exception on as it is. *)
Definition propagating {A} (m : M A) : Prop :=
  forall tr w, exists evs,
    trace_of (m tr w) = List.app tr evs /\ faithful evs (value_of (m tr w)).

(** The calls of the script when its last loop prints [n] lines. *)
Definition script_calls (n : nat) : list callee :=
  List.app (firstn 31 calls) (repeat at_print n).

Fixpoint is_prefix (p l : list callee) : bool :=
  match p, l with
  | [], _ => true
  | _ :: _, [] => false
  | a :: p', b :: l' => if callee_eq_dec a b then is_prefix p' l' else false
  end.

(** [all_chars p s]: every character of [s] satisfies [p]. *)
Fixpoint all_chars (p : ascii -> bool) (s : string) : bool :=
  match s with
  | EmptyString => true
  | String c s' => p c && all_chars p s'
  end.

Definition is_upper (c : ascii) : bool :=
  Nat.leb 65 (nat_of_ascii c) && Nat.leb (nat_of_ascii c) 90.

(** Strictly increasing in code-point order. *)
Fixpoint increasing (l : list string) : Prop :=
  match l with
  | [] => True
  | a :: r => match r with
              | [] => True
              | b :: _ => String.compare a b = Lt
              end /\ increasing r
  end.


(** * Properties *)

(** ** The generator: more draws allowed never change a result *)

Lemma interval_loop_mono (f f' : nat) (max mask : Z) (s : MT19937.state) r :
  Numpy.interval_loop f max mask s = Some r -> f <= f' ->
  Numpy.interval_loop f' max mask s = Some r.
Proof.
  revert f' s. induction f as [|f IH]; intros f' s H Hle; [discriminate|].
  destruct f' as [|f']; [lia|].
  cbn [Numpy.interval_loop] in *. destruct (MT19937.next s) as [v s'].
  destruct (Z.land v mask >? max)%Z; [apply IH; [assumption|lia]|assumption].
Qed.

Lemma random_interval_mono (f f' : nat) (max : Z) (s : MT19937.state) r :
  Numpy.random_interval f max s = Some r -> f <= f' ->
  Numpy.random_interval f' max s = Some r.
Proof.
  unfold Numpy.random_interval. destruct (max =? 0)%Z; [trivial|].
  apply interval_loop_mono.
Qed.

Lemma shuffle_loop_mono (f f' i : nat) (arr : list nat) (s : MT19937.state) r :
  Numpy.shuffle_loop f i arr s = Some r -> f <= f' ->
  Numpy.shuffle_loop f' i arr s = Some r.
Proof.
  revert arr s. induction i as [|i IH]; intros arr s H Hle; [assumption|].
  cbn [Numpy.shuffle_loop] in *.
  destruct (Numpy.random_interval f (Z.of_nat (S i)) s) as [[j s']|] eqn:E;
    [|discriminate].
  rewrite (random_interval_mono _ _ _ _ _ E Hle). apply IH; assumption.
Qed.

Lemma permutation_mono (f f' n : nat) (s : MT19937.state) r :
  Numpy.permutation f n s = Some r -> f <= f' ->
  Numpy.permutation f' n s = Some r.
Proof. apply shuffle_loop_mono. Qed.

(** The permutation drawn by a generator seeded with 42, for ten rows. *)
Lemma permutation_42 (fuel : nat) :
  3 <= fuel ->
  exists s, Numpy.permutation fuel 10 (MT19937.seed 42)
            = Some ([8; 1; 5; 0; 7; 2; 9; 4; 3; 6], s).
Proof.
  intro H.
  destruct (Numpy.permutation 3 10 (MT19937.seed 42)) as [[p s]|] eqn:E.
  - exists s. rewrite (permutation_mono _ _ _ _ _ E H).
    assert (Hp : option_map fst (Numpy.permutation 3 10 (MT19937.seed 42))
                 = Some [8; 1; 5; 0; 7; 2; 9; 4; 3; 6]) by (vm_compute; reflexivity).
    rewrite E in Hp. simpl in Hp. congruence.
  - assert (Hp : option_map fst (Numpy.permutation 3 10 (MT19937.seed 42))
                 <> None) by (vm_compute; discriminate).
    rewrite E in Hp. contradiction Hp. reflexivity.
Qed.

(** ** The split of ten rows drawn with [random_state=42] *)

Lemma validate_shuffle_split_10 :
  ModelSelection.validate_shuffle_split 10 test_size = Ok (7, 3).
Proof. vm_compute. reflexivity. Qed.

Lemma train_test_split_42 {A B} (fuel : nat) (X : Pandas.Series A)
    (y : Pandas.Series B) (g : MT19937.state) :
  3 <= fuel -> List.length X = 10 -> List.length y = 10 ->
  ModelSelection.train_test_split fuel X y test_size (Some 42%Z) g
  = (g, Ok (ModelSelection.mkSplit
              (Pandas.iloc X [0; 7; 2; 9; 4; 3; 6]) (Pandas.iloc X [8; 1; 5])
              (Pandas.iloc y [0; 7; 2; 9; 4; 3; 6]) (Pandas.iloc y [8; 1; 5]))).
Proof.
  intros Hf HX Hy. unfold ModelSelection.train_test_split.
  rewrite HX, Hy. cbn [Nat.eqb negb].
  rewrite validate_shuffle_split_10.
  change (Numpy.RandomState 42) with (Ok (MT19937.seed 42)).
  destruct (permutation_42 fuel Hf) as [s Hs]. rewrite Hs. reflexivity.
Qed.

(** ** [np.argmax] returns a position of its argument *)

Lemma argmax_from_lt (l : list float) (i bi : nat) (b : float) :
  bi < i -> Matrix.argmax_from l i bi b < i + List.length l.
Proof.
  revert i bi b. induction l as [|x r IH]; intros i bi b H; simpl.
  - lia.
  - destruct (Matrix.is_nan b); [lia|].
    destruct (PrimFloat.leb x b).
    + specialize (IH (S i) bi b). lia.
    + specialize (IH (S i) i x). lia.
Qed.

Lemma argmax_lt (l : list float) :
  l <> [] -> Matrix.argmax l < List.length l.
Proof.
  destruct l as [|x r]; [congruence|]. intros _. simpl.
  pose proof (argmax_from_lt r 1 0 x). lia.
Qed.

(** Order facts on binary64 numbers, through their specification. *)











Lemma leb_refl (a : float) : Matrix.is_nan a = false -> PrimFloat.leb a a = true.
Proof.
  unfold Matrix.is_nan. rewrite FloatAxioms.eqb_spec, leb_spec. unfold SFeqb, SFleb.
  destruct (SFcompare (Prim2SF a) (Prim2SF a)) as [[]|]; cbn; congruence.
Qed.

(** ** [np.argmax] picks the first maximum *)



(** ** [MultinomialNB]: when fitting and predicting succeed *)

Lemma fit_ok (log : float -> float) (m : MultinomialNB.t) (X : Matrix.t)
    (y : list string) :
  List.length (Matrix.rows X) <> 0 ->
  List.length (Matrix.rows X) = List.length y ->
  exists p, MultinomialNB.fit log m X y = Ok (MultinomialNB.mk (MultinomialNB.alpha m) (Some p))
    /\ MultinomialNB.classes_ p = Text.sorted_set y
    /\ MultinomialNB.n_features_in_ p = Matrix.n_cols X
    /\ List.length (MultinomialNB.feature_log_prob_ p) = List.length (Text.sorted_set y)
    /\ List.length (MultinomialNB.class_log_prior_ p) = List.length (Text.sorted_set y).
Proof.
  intros H0 Hl. unfold MultinomialNB.fit.
  destruct (Nat.eqb_spec (List.length (Matrix.rows X)) 0); [contradiction|].
  rewrite Hl, Nat.eqb_refl. cbn [negb].
  eexists. split; [reflexivity|]. cbn.
  unfold MultinomialNB.update_class_log_prior.
  rewrite !length_map. auto.
Qed.

Lemma predict_ok (m : MultinomialNB.t) (p : MultinomialNB.params) (X : Matrix.t) :
  MultinomialNB.fitted m = Some p ->
  Matrix.rows X <> [] ->
  Matrix.n_cols X = MultinomialNB.n_features_in_ p ->
  MultinomialNB.predict m X
  = Ok (map (fun row => nth (Matrix.argmax (MultinomialNB.joint_log_likelihood p row))
                            (MultinomialNB.classes_ p) EmptyString)
            (Matrix.rows X)).
Proof.
  intros Hf Hr Hn. unfold MultinomialNB.predict. rewrite Hf.
  destruct (Nat.eqb_spec (List.length (Matrix.rows X)) 0) as [E|_].
  - destruct (Matrix.rows X); [congruence|discriminate].
  - rewrite Hn, Nat.eqb_refl. reflexivity.
Qed.

Lemma joint_log_likelihood_length (p : MultinomialNB.params) (row : list float) :
  List.length (MultinomialNB.joint_log_likelihood p row)
  = Nat.min (List.length (MultinomialNB.feature_log_prob_ p))
            (List.length (MultinomialNB.class_log_prior_ p)).
Proof.
  unfold MultinomialNB.joint_log_likelihood.
  rewrite length_map, length_combine. reflexivity.
Qed.

(** Every predicted label is one of the classes seen when fitting. *)
Lemma predict_in_classes (m : MultinomialNB.t) (p : MultinomialNB.params)
    (X : Matrix.t) (l : list string) :
  MultinomialNB.fitted m = Some p ->
  MultinomialNB.classes_ p <> [] ->
  List.length (MultinomialNB.feature_log_prob_ p) = List.length (MultinomialNB.classes_ p) ->
  List.length (MultinomialNB.class_log_prior_ p) = List.length (MultinomialNB.classes_ p) ->
  MultinomialNB.predict m X = Ok l ->
  List.length l = List.length (Matrix.rows X)
  /\ Forall (fun c => In c (MultinomialNB.classes_ p)) l.
Proof.
  intros Hf Hne H1 H2. unfold MultinomialNB.predict. rewrite Hf.
  destruct (Nat.eqb _ 0); [discriminate|].
  destruct (negb _); [discriminate|]. intros [= <-].
  split; [apply length_map|]. apply Forall_forall. intros c Hc.
  apply in_map_iff in Hc. destruct Hc as [row [<- _]].
  apply nth_In.
  assert (Hj : MultinomialNB.joint_log_likelihood p row <> []).
  { intro E. apply (f_equal (@List.length _)) in E.
    rewrite joint_log_likelihood_length, H1, H2, Nat.min_id in E.
    destruct (MultinomialNB.classes_ p); [congruence|discriminate]. }
  pose proof (argmax_lt _ Hj) as Ha.
  rewrite joint_log_likelihood_length, H1, H2, Nat.min_id in Ha. exact Ha.
Qed.




(** ** [TfidfVectorizer]: when fitting and transforming succeed *)

Lemma fit_transform_ok (log : float -> float) (k : nat) (docs : list string) :
  let tdocs := map (Text.analyze Text.ENGLISH_STOP_WORDS) docs in
  let vocab := Text.sorted_set (List.concat tdocs) in
  vocab <> [] -> List.length vocab <= k ->
  exists idfs,
    TfidfVectorizer.fit_transform log (TfidfVectorizer.init "english" (Some k)) docs
    = Ok (TfidfVectorizer.mk "english" (Some k) (Some vocab) idfs,
          Matrix.mk (List.length vocab)
            (map (TfidfVectorizer.tfidf_row vocab idfs) tdocs)).
Proof.
  intros tdocs vocab. subst vocab tdocs.
  remember (map (Text.analyze Text.ENGLISH_STOP_WORDS) docs) as tdocs eqn:Et.
  remember (Text.sorted_set (List.concat tdocs)) as vocab eqn:Ev.
  intros Hne Hle.
  unfold TfidfVectorizer.fit_transform, TfidfVectorizer.init.
  cbn [TfidfVectorizer.max_features TfidfVectorizer.stop_words].
  destruct k as [|k].
  { destruct vocab; [congruence|simpl in Hle; lia]. }
  change (TfidfVectorizer.get_stop_words "english")
    with (Ok (A:=list string) Text.ENGLISH_STOP_WORDS).
  cbv beta iota. rewrite <- Et, <- Ev.
  assert (Hl : TfidfVectorizer.limit_features (Some (S k)) vocab tdocs = vocab).
  { unfold TfidfVectorizer.limit_features.
    destruct (Nat.ltb_spec (S k) (List.length vocab)); [lia|reflexivity]. }
  destruct vocab as [|v0 vr]; [congruence|].
  cbv zeta. rewrite Hl. eexists. reflexivity.
Qed.

Lemma transform_ok (v : TfidfVectorizer.t) (vocab : list string)
    (docs : list string) :
  TfidfVectorizer.vocabulary_ v = Some vocab ->
  TfidfVectorizer.stop_words v = "english" ->
  docs <> [] ->
  TfidfVectorizer.transform v docs
  = Ok (Matrix.mk (List.length vocab)
          (map (TfidfVectorizer.tfidf_row vocab (TfidfVectorizer.idf_ v))
               (map (Text.analyze Text.ENGLISH_STOP_WORDS) docs))).
Proof.
  intros Hv Hs Hd. unfold TfidfVectorizer.transform. rewrite Hv, Hs.
  change (TfidfVectorizer.get_stop_words "english")
    with (Ok (A:=list string) Text.ENGLISH_STOP_WORDS).
  cbv beta iota zeta. rewrite length_map.
  destruct docs as [|d docs]; [congruence|]. reflexivity.
Qed.

(** ** Metrics: defined whenever both label sequences are equally long *)

Lemma accuracy_score_ok (a b : list string) :
  List.length a = List.length b ->
  exists x, Metrics.accuracy_score a b = Ok x.
Proof.
  intro H. unfold Metrics.accuracy_score. rewrite H, Nat.eqb_refl.
  eexists. reflexivity.
Qed.

Lemma confusion_matrix_ok (a b : list string) :
  List.length a = List.length b ->
  Metrics.confusion_matrix a b
  = Ok (map (fun x => map (Metrics.cell a b x) (Metrics.unique_labels a b))
            (Metrics.unique_labels a b)).
Proof.
  intro H. unfold Metrics.confusion_matrix. rewrite H, Nat.eqb_refl.
  reflexivity.
Qed.

Lemma classification_report_ok (a b names : list string) :
  List.length a = List.length b ->
  List.length (Metrics.unique_labels a b) = List.length names ->
  exists r, Metrics.classification_report a b names = Ok r.
Proof.
  intros H1 H2. unfold Metrics.classification_report.
  rewrite H1, H2, !Nat.eqb_refl. eexists. reflexivity.
Qed.

(** ** Stepping through the script *)

Lemma bind_call {A B} (c : callee) (op : Lib A) (k : A -> M B)
    (tr : list event) (w w' : world) (a : A) :
  op w = (w', Ok a) ->
  bind (call c op) k tr w = k a (List.app tr [(c, Returned)]) w'.
Proof. intro H. unfold bind, call. rewrite H. reflexivity. Qed.

Lemma bind_call_raise {A B} (c : callee) (op : Lib A) (k : A -> M B)
    (tr : list event) (w w' : world) (e : exn) :
  op w = (w', Raise e) ->
  bind (call c op) k tr w = ((List.app tr [(c, Raised e)], w'), Raise e).
Proof. intro H. unfold bind, call. rewrite H. reflexivity. Qed.

Lemma on_current_last (f : figure -> figure) (w : world) (older : list figure)
    (cur : figure) :
  open_figures w = List.app older [cur] ->
  on_current f w
  = (mkWorld (np_random w) (stdout w) (files w) (List.app older [f cur])
       (displayed w), Ok tt).
Proof.
  intro H. unfold on_current. rewrite H, rev_app_distr. cbn [rev List.app].
  rewrite rev_involutive. reflexivity.
Qed.

(** With both labels among the true ones, predictions drawn from the two
    labels add no third one. *)
Lemma unique_labels_two (l : list string) :
  Forall (fun c => In c ["ham"; "spam"]) l ->
  Metrics.unique_labels ["spam"; "ham"; "ham"] l = ["ham"; "spam"].
Proof.
  unfold Metrics.unique_labels, Text.sorted_set. rewrite fold_left_app.
  change (fold_left (fun acc t => Text.insert t acc) ["spam"; "ham"; "ham"] [])
    with ["ham"; "spam"].
  induction 1 as [|c l Hc _ IH]; [reflexivity|].
  cbn [fold_left].
  assert (E : Text.insert c ["ham"; "spam"] = ["ham"; "spam"]).
  { destruct Hc as [<-|[<-|[]]]; reflexivity. }
  rewrite E. exact IH.
Qed.

(** ** The run of the notebook with the modelled libraries *)

Lemma cells_2_3 :
  exists d ex ey,
    Pandas.DataFrame the_data = Ok d
    /\ Pandas.getitem d "email" = Ok ex
    /\ Pandas.getitem d "label" = Ok ey
    /\ List.length ex = 10 /\ List.length ey = 10
    /\ List.length (Pandas.iloc ex [0; 7; 2; 9; 4; 3; 6]) = 7
    /\ List.length (Pandas.iloc ex [8; 1; 5]) = 3
    /\ List.length (Pandas.iloc ey [0; 7; 2; 9; 4; 3; 6]) = 7
    /\ Pandas.values (Pandas.iloc ey [8; 1; 5]) = ["spam"; "ham"; "ham"]
    /\ Text.sorted_set (Pandas.values (Pandas.iloc ey [0; 7; 2; 9; 4; 3; 6]))
       = ["ham"; "spam"]
    /\ List.length
         (Text.sorted_set
            (List.concat
               (map (Text.analyze Text.ENGLISH_STOP_WORDS)
                    (Pandas.values (Pandas.iloc ex [0; 7; 2; 9; 4; 3; 6])))))
       = 23.
Proof.
  do 3 eexists. split; [vm_compute; reflexivity|].
  split; [vm_compute; reflexivity|].
  split; [vm_compute; reflexivity|].
  repeat split; vm_compute; reflexivity.
Qed.

Lemma pipeline (log : float -> float) :
  exists ns rep,
    dataflow log ns /\ summary ns
    /\ Metrics.classification_report (Pandas.values (y_test ns)) (y_pred ns)
         ["ham"; "spam"] = Ok rep.
Proof.
  destruct cells_2_3
    as (d & ex & ey & Hd & Hex & Hey & Lx & Ly & Lxtr & Lxte & Lytr & Eyte & Ecl & Lv).
  set (docs := Pandas.values (Pandas.iloc ex [0; 7; 2; 9; 4; 3; 6])) in *.
  destruct (fit_transform_ok log 100 docs) as [idfs Hft].
  { intro E. cbv zeta in E. rewrite E in Lv. discriminate. }
  { cbv zeta. rewrite Lv. repeat constructor. }
  cbv zeta in Hft. rewrite Lv in Hft.
  set (vocab := Text.sorted_set _) in Hft.
  set (v := TfidfVectorizer.mk _ _ _ _) in Hft.
  set (Xtr := Matrix.mk _ _) in Hft.
  assert (Nte : Pandas.values (Pandas.iloc ex [8; 1; 5]) <> []).
  { intro E. apply (f_equal (@List.length _)) in E. unfold Pandas.values in E.
    rewrite length_map, Lxte in E. discriminate. }
  pose proof (transform_ok v vocab (Pandas.values (Pandas.iloc ex [8; 1; 5]))
                eq_refl eq_refl Nte) as Htt.
  fold vocab in Lv. rewrite Lv in Htt.
  set (Xte := Matrix.mk _ _) in Htt.
  destruct (fit_ok log MultinomialNB.init Xtr
              (Pandas.values (Pandas.iloc ey [0; 7; 2; 9; 4; 3; 6])))
    as (p & Hfit & Hc & Hn & Hl1 & Hl2).
  { unfold Xtr, docs, Pandas.values. cbn [Matrix.rows]. rewrite !length_map, Lxtr. discriminate. }
  { unfold Xtr, docs, Pandas.values. cbn [Matrix.rows]. rewrite !length_map, Lxtr, Lytr. reflexivity. }
  pose proof Hc as Hc'. rewrite Ecl in Hc, Hl1, Hl2.
  set (m := MultinomialNB.mk _ _) in Hfit.
  assert (Hm : MultinomialNB.fitted m = Some p) by reflexivity.
  assert (Hne : MultinomialNB.classes_ p <> []) by (rewrite Hc; discriminate).
  rewrite <- Hc in Hl1, Hl2.
  assert (Rte : Matrix.rows Xte <> []).
  { intro E. apply (f_equal (@List.length _)) in E. unfold Xte, Pandas.values in E.
    cbn [Matrix.rows] in E. rewrite !length_map, Lxte in E. discriminate. }
  pose proof (predict_ok m p Xte Hm Rte (eq_sym Hn)) as Hp.
  set (yp := map _ (Matrix.rows Xte)) in Hp.
  destruct (predict_in_classes m p Xte yp Hm Hne Hl1 Hl2 Hp) as [Lyp Fyp].
  set (Xnew := Matrix.mk 23 (map (TfidfVectorizer.tfidf_row vocab (TfidfVectorizer.idf_ v))
                 (map (Text.analyze Text.ENGLISH_STOP_WORDS) the_new_emails))).
  assert (Hnt : TfidfVectorizer.transform v the_new_emails = Ok Xnew).
  { rewrite (transform_ok v vocab the_new_emails eq_refl eq_refl), Lv;
      [reflexivity|discriminate]. }
  assert (Rnew : Matrix.rows Xnew <> []) by discriminate.
  pose proof (predict_ok m p Xnew Hm Rnew (eq_sym Hn)) as Hnp.
  set (np := map _ (Matrix.rows Xnew)) in Hnp.
  destruct (predict_in_classes m p Xnew np Hm Hne Hl1 Hl2 Hnp) as [Lnp Fnp].
  assert (Lyp' : List.length yp = 3).
  { rewrite Lyp. unfold Xte, Pandas.values. cbn [Matrix.rows]. rewrite !length_map. exact Lxte. }
  rewrite Hc in Fyp, Fnp.
  destruct (accuracy_score_ok (Pandas.values (Pandas.iloc ey [8; 1; 5])) yp) as [acc Hacc].
  { rewrite Eyte, Lyp'. reflexivity. }
  destruct (classification_report_ok (Pandas.values (Pandas.iloc ey [8; 1; 5])) yp
              ["ham"; "spam"]) as [rep Hrep].
  { rewrite Eyte, Lyp'. reflexivity. }
  { rewrite Eyte, (unique_labels_two yp Fyp). reflexivity. }
  pose proof (confusion_matrix_ok (Pandas.values (Pandas.iloc ey [8; 1; 5])) yp) as Hcm.
  rewrite Eyte, Lyp' in Hcm. specialize (Hcm eq_refl). rewrite <- Eyte in Hcm.
  set (cmv := map _ _) in Hcm.
  exists (mkNamespace the_data d ex ey
            (Pandas.iloc ex [0; 7; 2; 9; 4; 3; 6]) (Pandas.iloc ex [8; 1; 5])
            (Pandas.iloc ey [0; 7; 2; 9; 4; 3; 6]) (Pandas.iloc ey [8; 1; 5])
            v Xtr Xte m yp acc cmv the_new_emails Xnew np), rep.
  split.
  { constructor;
      cbn [data df X y X_train X_test y_train y_test tfidf X_train_tfidf
           X_test_tfidf model y_pred accuracy cm new_emails new_emails_tfidf
           new_predictions];
      first [assumption | reflexivity]. }
  split; [|exact Hrep].
  constructor; cbn [tfidf X_train X_train_tfidf X_test_tfidf new_emails_tfidf
                    model y_train y_pred new_predictions].
  - reflexivity.
  - unfold Matrix.shape, Xtr, docs, Pandas.values. cbn [Matrix.rows Matrix.n_cols].
    rewrite !length_map, Lxtr. reflexivity.
  - unfold Matrix.shape, Xte, Pandas.values. cbn [Matrix.rows Matrix.n_cols].
    rewrite !length_map, Lxte. reflexivity.
  - reflexivity.
  - exists p. repeat split; assumption.
  - auto.
  - split; [|exact Fnp]. rewrite Lnp. reflexivity.
Qed.

Ltac ns_simpl :=
  cbn [data df X y X_train X_test y_train y_test tfidf X_train_tfidf
       X_test_tfidf model y_pred accuracy cm new_emails new_emails_tfidf
       new_predictions] in *.

Lemma dataflow_lengths (log : float -> float) (ns : namespace) :
  dataflow log ns -> List.length (X ns) = 10 /\ List.length (y ns) = 10.
Proof.
  intros [Hd Hdf HX Hy _ _ _ _ _ _ _ _ _ _ _ _ _].
  destruct ns; ns_simpl. subst. vm_compute in Hdf. injection Hdf as <-.
  vm_compute in HX, Hy. injection HX as <-. injection Hy as <-.
  split; reflexivity.
Qed.


Ltac step tac :=
  erewrite bind_call by tac;
  cbn [np_random stdout files open_figures displayed].

Lemma bind_assoc {A B C} (m : M A) (k : A -> M B) (k' : B -> M C)
    (tr : list event) (w : world) :
  bind (bind m k) k' tr w = bind m (fun a => bind (k a) k') tr w.
Proof.
  unfold bind. destruct (m tr w) as [[tr' w'] [a| |]]; reflexivity.
Qed.

Lemma notebook_run (log : float -> float) (ns : namespace) (rep : Metrics.report) :
  dataflow log ns -> summary ns ->
  Metrics.classification_report (Pandas.values (y_test ns)) (y_pred ns)
    ["ham"; "spam"] = Ok rep ->
  forall (fuel : nat) (tr : list event) (w : world),
    3 <= fuel ->
    notebook (sklearn log fuel) tr w
    = ((List.app tr (map (fun c => (c, Returned)) calls), effects ns rep w), Ok ns).
Proof.
  intros Hflow Hsum Hrep fuel tr w Hf.
  destruct (dataflow_lengths log ns Hflow) as [LX Ly].
  destruct Hsum as [_ _ _ _ _ _ [Lnp _]].
  destruct Hflow as [Hdata Hdf HX Hy HXtr HXte Hytr Hyte Hft Htt Hfit Hp Hacc Hcm
                     Hnew Hnt Hnp].
  unfold effects, output, chart.
  destruct ns as [data0 df0 X0 y0 Xtr Xte ytr yte v Mtr Mte m yp acc cm0 new Mnew np].
  ns_simpl. subst data0 Xtr Xte ytr yte new.
  destruct np as [|p1 [|p2 [|p3 [|]]]]; try discriminate Lnp. clear Lnp.
  unfold notebook.
  cbn [np_random_seed pd_DataFrame print to_csv getitem train_test_split
       TfidfVectorizer fit_transform transform MultinomialNB fit predict
       accuracy_score classification_report confusion_matrix plt_figure
       sns_heatmap plt_title plt_xlabel plt_ylabel plt_show sklearn].
  step ltac:(reflexivity).
  step ltac:(unfold pure; rewrite Hdf; reflexivity).
  step ltac:(reflexivity).
  step ltac:(reflexivity).
  step ltac:(reflexivity).
  step ltac:(unfold pure; rewrite HX; reflexivity).
  step ltac:(unfold pure; rewrite Hy; reflexivity).
  step ltac:(rewrite (train_test_split_42 fuel X0 y0 _ Hf LX Ly); reflexivity).
  cbn [ModelSelection.X_train ModelSelection.X_test ModelSelection.y_train
       ModelSelection.y_test].
  step ltac:(reflexivity).
  step ltac:(unfold pure; rewrite Hft; reflexivity).
  cbn [fst snd].
  step ltac:(unfold pure; rewrite Htt; reflexivity).
  step ltac:(reflexivity).
  step ltac:(reflexivity).
  step ltac:(reflexivity).
  step ltac:(unfold pure; rewrite Hfit; reflexivity).
  step ltac:(unfold pure; rewrite Hp; reflexivity).
  step ltac:(reflexivity).
  step ltac:(unfold pure; rewrite Hacc; reflexivity).
  step ltac:(reflexivity).
  step ltac:(reflexivity).
  step ltac:(unfold pure; rewrite Hrep; reflexivity).
  step ltac:(reflexivity).
  step ltac:(unfold pure; rewrite Hcm; reflexivity).
  step ltac:(reflexivity).
  step ltac:(apply on_current_last; reflexivity).
  step ltac:(apply on_current_last; reflexivity).
  step ltac:(apply on_current_last; reflexivity).
  step ltac:(apply on_current_last; reflexivity).
  step ltac:(reflexivity).
  step ltac:(unfold pure; rewrite Hnt; reflexivity).
  step ltac:(unfold pure; rewrite Hnp; reflexivity).
  unfold the_new_emails. cbn [combine for_each fst snd].
  rewrite bind_assoc. step ltac:(reflexivity).
  rewrite bind_assoc. step ltac:(reflexivity).
  rewrite bind_assoc. step ltac:(reflexivity).
  unfold bind, ret. cbn [figsize heatmap title xlabel ylabel].
  repeat rewrite <- app_assoc. reflexivity.
Qed.

(** ** Exceptions are handed on *)

Lemma propagating_ret {A} (a : A) : propagating (ret a).
Proof. intros tr w. exists []. split; [symmetry; apply app_nil_r|constructor]. Qed.

Lemma propagating_call {A} (c : callee) (op : Lib A) : propagating (call c op).
Proof.
  intros tr w. unfold call, trace_of, value_of. destruct (op w) as [w' r].
  exists [(c, outcome_of r)]. split; [reflexivity|].
  destruct r; cbn.
  - repeat constructor.
  - exists [], c. split; [reflexivity|constructor].
  - exists [], c. split; [reflexivity|constructor].
Qed.

Lemma faithful_app {A} (evs1 evs2 : list event) (r : result A) :
  Forall returned evs1 -> faithful evs2 r -> faithful (List.app evs1 evs2) r.
Proof.
  intros H1 H2. destruct r; cbn in *.
  - apply Forall_app. split; assumption.
  - destruct H2 as (pre & c & -> & Hp). exists (List.app evs1 pre), c.
    split; [apply app_assoc|apply Forall_app; split; assumption].
  - destruct H2 as (pre & c & -> & Hp). exists (List.app evs1 pre), c.
    split; [apply app_assoc|apply Forall_app; split; assumption].
Qed.

Lemma propagating_bind {A B} (m : M A) (k : A -> M B) :
  propagating m -> (forall a, propagating (k a)) -> propagating (bind m k).
Proof.
  intros Hm Hk tr w. destruct (Hm tr w) as (evs1 & Ht & Hr).
  unfold bind, trace_of, value_of in *.
  destruct (m tr w) as [[tr1 w1] [a|e|]]; cbn [fst snd] in *.
  - destruct (Hk a tr1 w1) as (evs2 & Ht2 & Hr2).
    unfold trace_of, value_of in Ht2, Hr2.
    exists (List.app evs1 evs2). split.
    + rewrite Ht2, Ht. symmetry. apply app_assoc.
    + apply faithful_app; assumption.
  - exists evs1. split; assumption.
  - exists evs1. split; assumption.
Qed.

Lemma propagating_for_each {A} (l : list A) (body : A -> M unit) :
  (forall x, propagating (body x)) -> propagating (for_each l body).
Proof.
  intro H. induction l as [|x l IH]; cbn [for_each].
  - apply propagating_ret.
  - apply propagating_bind; [apply H|intros _; exact IH].
Qed.

Lemma propagating_notebook (L : library) : propagating (notebook L).
Proof.
  unfold notebook.
  repeat first
    [ apply propagating_ret
    | apply propagating_call
    | apply propagating_for_each; intro
    | apply propagating_bind; [|intro] ].
Qed.

(** ** What every run with the modelled libraries returns *)

Lemma notebook_returns (log : float -> float) :
  exists ns rep,
    dataflow log ns /\ summary ns
    /\ Metrics.classification_report (Pandas.values (y_test ns)) (y_pred ns)
         ["ham"; "spam"] = Ok rep
    /\ forall (fuel : nat) (tr : list event) (w : world),
         3 <= fuel ->
         notebook (sklearn log fuel) tr w
         = ((List.app tr (map (fun c => (c, Returned)) calls), effects ns rep w),
            Ok ns).
Proof.
  destruct (pipeline log) as (ns & rep & Hflow & Hsum & Hrep).
  exists ns, rep.
  split; [assumption|]. split; [assumption|]. split; [assumption|].
  apply notebook_run; assumption.
Qed.

(** The frame and the two columns of a run, as values. *)
Ltac data_values Hflow :=
  destruct Hflow as [Hdata Hdf HX Hy HXtr HXte Hytr Hyte Hft Htt Hfit Hp Hacc Hcm
                     Hnew Hnt Hnp];
  ns_simpl; subst;
  vm_compute in Hdf; injection Hdf as <-;
  vm_compute in HX, Hy; injection HX as <-; injection Hy as <-.

(** C2: the data-creation cell builds one table with exactly the two fields
    email and label and exactly ten records, fixed in the source, and every
    record's label is "spam" or "ham". *)
Theorem C2_dataset_two_fields_ten_records (log : float -> float) (fuel : nat)
    (w : world) :
  3 <= fuel ->
  exists ns,
    value_of (notebook (sklearn log fuel) [] w) = Ok ns
    /\ data ns = the_data
    /\ map fst (data ns) = ["email"; "label"]
    /\ Pandas.DataFrame (data ns) = Ok (df ns)
    /\ Pandas.columns (df ns) = ["email"; "label"]
    /\ List.length (Pandas.rows (df ns)) = 10
    /\ Forall (fun r => exists e l, snd r = [e; l] /\ (l = "spam" \/ l = "ham"))
              (Pandas.rows (df ns)).
Proof.
  intro Hf. destruct (notebook_returns log) as (ns & rep & Hflow & _ & _ & Hrun).
  exists ns. rewrite (Hrun fuel [] w Hf). split; [reflexivity|].
  destruct ns as [data0 df0 X0 y0 Xtr Xte ytr yte v Mtr Mte m yp acc cm0 new Mnew np].
  data_values Hflow. ns_simpl.
  repeat split; try reflexivity.
  repeat constructor; eexists; eexists; (split; [reflexivity|]); auto.
Qed.

Lemma C2_dataset_witness :
  3 <= 3 /\
  exists ns,
    value_of (notebook (sklearn (fun x => x) 3) [] (start (MT19937.seed 0))) = Ok ns
    /\ data ns = the_data
    /\ map fst (data ns) = ["email"; "label"]
    /\ Pandas.DataFrame (data ns) = Ok (df ns)
    /\ Pandas.columns (df ns) = ["email"; "label"]
    /\ List.length (Pandas.rows (df ns)) = 10
    /\ Forall (fun r => exists e l, snd r = [e; l] /\ (l = "spam" \/ l = "ham"))
              (Pandas.rows (df ns)).
Proof.
  split; [lia|].
  apply (C2_dataset_two_fields_ten_records (fun x => x) 3 (start (MT19937.seed 0))).
  lia.
Defined.

Ltac nodup_pairs :=
  repeat (constructor; [cbn; intuition discriminate|]); constructor.

Ltac same_elements :=
  intros [i s]; cbn; split; intro H; intuition.

(** C8: the split with test fraction 0.3 puts 7 of the ten records in the
    training set and 3 in the test set; the two sets are disjoint, together
    they are the ten records, and every email stays with the label of its
    record. *)
Theorem C8_split_seven_three_partition (log : float -> float) (fuel : nat)
    (w : world) :
  3 <= fuel ->
  exists ns,
    value_of (notebook (sklearn log fuel) [] w) = Ok ns
    /\ List.length (X ns) = 10 /\ List.length (y ns) = 10
    /\ List.length (X_train ns) = 7 /\ List.length (y_train ns) = 7
    /\ List.length (X_test ns) = 3 /\ List.length (y_test ns) = 3
    /\ (forall i, In i (map fst (X_train ns)) -> ~ In i (map fst (X_test ns)))
    /\ Permutation (List.app (X_train ns) (X_test ns)) (X ns)
    /\ Permutation (List.app (y_train ns) (y_test ns)) (y ns)
    /\ Forall2 (fun a b => fst a = fst b
                           /\ In (fst a, [snd a; snd b]) (Pandas.rows (df ns)))
               (List.app (X_train ns) (X_test ns))
               (List.app (y_train ns) (y_test ns)).
Proof.
  intro Hf. destruct (notebook_returns log) as (ns & rep & Hflow & _ & _ & Hrun).
  exists ns. rewrite (Hrun fuel [] w Hf). split; [reflexivity|].
  destruct ns as [data0 df0 X0 y0 Xtr Xte ytr yte v Mtr Mte m yp acc cm0 new Mnew np].
  data_values Hflow. ns_simpl.
  do 6 (split; [reflexivity|]).
  split.
  { cbn. intros i H1 H2. intuition lia. }
  split.
  { apply NoDup_Permutation; [cbn; nodup_pairs|nodup_pairs|same_elements]. }
  split.
  { apply NoDup_Permutation; [cbn; nodup_pairs|nodup_pairs|same_elements]. }
  cbn. repeat (constructor; [split; [reflexivity|cbn; tauto]|]). constructor.
Qed.

Lemma C8_split_witness :
  3 <= 3 /\
  exists ns,
    value_of (notebook (sklearn (fun x => x) 3) [] (start (MT19937.seed 0))) = Ok ns
    /\ List.length (X ns) = 10 /\ List.length (y ns) = 10
    /\ List.length (X_train ns) = 7 /\ List.length (y_train ns) = 7
    /\ List.length (X_test ns) = 3 /\ List.length (y_test ns) = 3
    /\ (forall i, In i (map fst (X_train ns)) -> ~ In i (map fst (X_test ns)))
    /\ Permutation (List.app (X_train ns) (X_test ns)) (X ns)
    /\ Permutation (List.app (y_train ns) (y_test ns)) (y ns)
    /\ Forall2 (fun a b => fst a = fst b
                           /\ In (fst a, [snd a; snd b]) (Pandas.rows (df ns)))
               (List.app (X_train ns) (X_test ns))
               (List.app (y_train ns) (y_test ns)).
Proof.
  split; [lia|].
  apply (C8_split_seven_three_partition (fun x => x) 3 (start (MT19937.seed 0))).
  lia.
Defined.

(** C9: the ten labels are five "spam" and five "ham", alternating and
    starting with "spam" at index 0. *)
Theorem C9_labels_balanced_alternating (log : float -> float) (fuel : nat)
    (w : world) :
  3 <= fuel ->
  exists ns,
    value_of (notebook (sklearn log fuel) [] w) = Ok ns
    /\ map fst (y ns) = seq 0 10
    /\ Text.count "spam" (Pandas.values (y ns)) = 5
    /\ Text.count "ham" (Pandas.values (y ns)) = 5
    /\ List.length (Pandas.values (y ns)) = 10
    /\ forall i, i < 10 ->
         nth i (Pandas.values (y ns)) EmptyString
         = if Nat.even i then "spam" else "ham".
Proof.
  intro Hf. destruct (notebook_returns log) as (ns & rep & Hflow & _ & _ & Hrun).
  exists ns. rewrite (Hrun fuel [] w Hf). split; [reflexivity|].
  destruct ns as [data0 df0 X0 y0 Xtr Xte ytr yte v Mtr Mte m yp acc cm0 new Mnew np].
  data_values Hflow. ns_simpl.
  do 4 (split; [reflexivity|]).
  intros i Hi. do 10 (destruct i as [|i]; [reflexivity|]). lia.
Qed.

Lemma C9_labels_witness :
  3 <= 3 /\
  exists ns,
    value_of (notebook (sklearn (fun x => x) 3) [] (start (MT19937.seed 0))) = Ok ns
    /\ map fst (y ns) = seq 0 10
    /\ Text.count "spam" (Pandas.values (y ns)) = 5
    /\ Text.count "ham" (Pandas.values (y ns)) = 5
    /\ List.length (Pandas.values (y ns)) = 10
    /\ forall i, i < 10 ->
         nth i (Pandas.values (y ns)) EmptyString
         = if Nat.even i then "spam" else "ham".
Proof.
  split; [lia|].
  apply (C9_labels_balanced_alternating (fun x => x) 3 (start (MT19937.seed 0))).
  lia.
Defined.

(** C3: the run writes exactly one file, the CSV of the dataset: a header
    with the two column names and the ten records, without an index
    column.  Whatever files existed before are left as they were; all other
    output is printed or drawn by the notebook itself. *)
Theorem C3_only_the_csv_is_written (log : float -> float) (fuel : nat)
    (w : world) :
  3 <= fuel ->
  files (world_of (notebook (sklearn log fuel) [] w))
  = List.app (files w)
      [("spam_email_data.csv",
        ["email,label";
         "win a free prize now click here,spam";
         "meeting at 10am tomorrow,ham";
         "urgent money transfer needed,spam";
         "hello how are you today,ham";
         "claim your lottery winnings,spam";
         "project update for team,ham";
         "buy cheap products online now,spam";
         "lunch plans this afternoon,ham";
         "exclusive offer just for you,spam";
         "review the attached document,ham"])]
  /\ List.length
       (filter (fun ev => if callee_eq_dec (fst ev) at_to_csv then true else false)
               (trace_of (notebook (sklearn log fuel) [] w))) = 1.
Proof.
  intro Hf. destruct (notebook_returns log) as (ns & rep & Hflow & _ & _ & Hrun).
  rewrite (Hrun fuel [] w Hf). split; [|reflexivity].
  destruct ns as [data0 df0 X0 y0 Xtr Xte ytr yte v Mtr Mte m yp acc cm0 new Mnew np].
  data_values Hflow. reflexivity.
Qed.

Lemma C3_csv_witness :
  3 <= 3 /\
  List.length
    (files (world_of (notebook (sklearn (fun x => x) 3) []
                        (start (MT19937.seed 0))))) = 1.
Proof.
  split; [lia|].
  rewrite (proj1 (C3_only_the_csv_is_written (fun x => x) 3
                    (start (MT19937.seed 0)) (le_n 3))).
  reflexivity.
Defined.



(** C5: after the evaluation the notebook takes exactly three new emails,
    transforms them with the vectorizer fitted on the training emails (the
    only fit of a vectorizer in the run) and prints one predicted label for
    each. *)
Theorem C5_three_new_emails_same_vectorizer (log : float -> float) (fuel : nat)
    (w : world) :
  3 <= fuel ->
  exists ns,
    value_of (notebook (sklearn log fuel) [] w) = Ok ns
    /\ new_emails ns = the_new_emails
    /\ List.length (new_emails ns) = 3
    /\ TfidfVectorizer.fit_transform log
         (TfidfVectorizer.init "english" (Some 100)) (Pandas.values (X_train ns))
       = Ok (tfidf ns, X_train_tfidf ns)
    /\ TfidfVectorizer.transform (tfidf ns) (new_emails ns)
       = Ok (new_emails_tfidf ns)
    /\ MultinomialNB.predict (model ns) (new_emails_tfidf ns)
       = Ok (new_predictions ns)
    /\ List.length (new_predictions ns) = 3
    /\ count_occ callee_eq_dec
         (map fst (trace_of (notebook (sklearn log fuel) [] w))) at_fit_transform = 1
    /\ skipn 22 (map fst (trace_of (notebook (sklearn log fuel) [] w)))
       = [at_confusion_matrix; at_figure; at_heatmap; at_title; at_xlabel;
          at_ylabel; at_show;
          at_transform; at_predict; at_print; at_print; at_print]
    /\ exists earlier,
         stdout (world_of (notebook (sklearn log fuel) [] w))
         = List.app earlier
             (map (fun p => [PText ("Email: '" ++ fst p ++ "' -> Predicted: "
                                    ++ snd p)])
                  (combine (new_emails ns) (new_predictions ns))).
Proof.
  intro Hf.
  destruct (notebook_returns log) as (ns & rep & Hflow & Hsum & _ & Hrun).
  exists ns. rewrite (Hrun fuel [] w Hf). split; [reflexivity|].
  destruct Hsum as [_ _ _ _ _ _ [Lnp _]].
  destruct Hflow as [_ _ _ _ _ _ _ _ Hft _ _ _ _ _ Hnew Hnt Hnp].
  split; [assumption|]. split; [rewrite Hnew; reflexivity|].
  do 4 (split; [assumption|]). split; [reflexivity|]. split; [reflexivity|].
  unfold world_of, effects, output. cbn [fst snd stdout].
  eexists. rewrite app_assoc. reflexivity.
Qed.

Lemma C5_three_new_emails_witness :
  3 <= 3 /\
  exists ns,
    value_of (notebook (sklearn (fun x => x) 3) [] (start (MT19937.seed 0))) = Ok ns
    /\ new_emails ns = the_new_emails
    /\ List.length (new_predictions ns) = 3.
Proof.
  split; [lia|].
  destruct (C5_three_new_emails_same_vectorizer (fun x => x) 3
              (start (MT19937.seed 0)))
    as (ns & H & H1 & _ & _ & _ & _ & H2 & _); [lia|].
  exists ns. repeat split; assumption.
Defined.



(** C1 as the spec states it fails: in the run the vectorizer is not fitted
    before the split; the split is made first. *)
Lemma C1_vectorizing_is_not_before_the_split :
  ~ (happens_before at_fit_transform at_train_test_split
       (map fst (trace_of (notebook (sklearn (fun x => x) 3) []
                             (start (MT19937.seed 0))))) = true).
Proof. vm_compute. discriminate. Qed.

(** C1, amended: the cells run in the order construct the data, split into
    train and test sets, vectorize the text, fit the classifier, predict on
    the test set, report metrics, predict on the three new emails; every
    call returns, and the split comes before the vectorizer is created or
    fitted. *)
Theorem C1_cells_run_in_order (log : float -> float) (fuel : nat) (w : world) :
  3 <= fuel ->
  let tr := trace_of (notebook (sklearn log fuel) [] w) in
  map fst tr = calls
  /\ Forall returned tr
  /\ in_order [at_DataFrame; at_train_test_split; at_fit_transform; at_fit;
               at_predict; at_accuracy_score; at_classification_report;
               at_confusion_matrix; at_transform; at_predict] (map fst tr) = true
  /\ happens_before at_DataFrame at_train_test_split (map fst tr) = true
  /\ happens_before at_train_test_split at_TfidfVectorizer (map fst tr) = true
  /\ happens_before at_train_test_split at_fit_transform (map fst tr) = true
  /\ happens_before at_fit_transform at_fit (map fst tr) = true
  /\ happens_before at_fit at_predict (map fst tr) = true
  /\ happens_before at_predict at_accuracy_score (map fst tr) = true
  /\ skipn 29 (map fst tr) = [at_transform; at_predict; at_print; at_print; at_print].
Proof.
  intros Hf tr. subst tr.
  destruct (notebook_returns log) as (ns & rep & _ & _ & _ & Hrun).
  rewrite (Hrun fuel [] w Hf). unfold trace_of. cbn [fst List.app].
  split; [reflexivity|]. split; [|repeat split; reflexivity].
  unfold calls. repeat constructor.
Qed.

Lemma C1_cells_run_in_order_witness :
  3 <= 3 /\
  map fst (trace_of (notebook (sklearn (fun x => x) 3) [] (start (MT19937.seed 0))))
  = calls.
Proof.
  split; [lia|].
  apply (C1_cells_run_in_order (fun x => x) 3 (start (MT19937.seed 0))). lia.
Defined.

(** C10: two runs give the same split, the same fitted vocabulary, the same
    predictions and the same metrics, whatever the state of the global
    generator and whatever was printed, written or drawn before: the value,
    the calls and everything added to the world are equal. *)
Theorem C10_runs_are_identical (log : float -> float) (fuel1 fuel2 : nat)
    (w1 w2 : world) :
  3 <= fuel1 -> 3 <= fuel2 ->
  let r1 := notebook (sklearn log fuel1) [] w1 in
  let r2 := notebook (sklearn log fuel2) [] w2 in
  value_of r1 = value_of r2
  /\ trace_of r1 = trace_of r2
  /\ np_random (world_of r1) = np_random (world_of r2)
  /\ exists ns printed written drawn,
       value_of r1 = Ok ns
       /\ stdout (world_of r1) = List.app (stdout w1) printed
       /\ stdout (world_of r2) = List.app (stdout w2) printed
       /\ files (world_of r1) = List.app (files w1) written
       /\ files (world_of r2) = List.app (files w2) written
       /\ displayed (world_of r1)
          = List.app (displayed w1) (List.app (open_figures w1) drawn)
       /\ displayed (world_of r2)
          = List.app (displayed w2) (List.app (open_figures w2) drawn).
Proof.
  intros H1 H2 r1 r2. subst r1 r2.
  destruct (notebook_returns log) as (ns & rep & _ & _ & _ & Hrun).
  rewrite (Hrun fuel1 [] w1 H1), (Hrun fuel2 [] w2 H2).
  unfold value_of, trace_of, world_of, effects. cbn [fst snd np_random stdout files displayed].
  do 3 (split; [reflexivity|]).
  exists ns. do 3 eexists. repeat split; reflexivity.
Qed.

Lemma C10_runs_are_identical_witness :
  3 <= 3 /\ 3 <= 5 /\
  value_of (notebook (sklearn (fun x => x) 3) [] (start (MT19937.seed 0)))
  = value_of (notebook (sklearn (fun x => x) 5) [] (start (MT19937.seed 7))).
Proof.
  split; [lia|]. split; [lia|].
  apply (C10_runs_are_identical (fun x => x) 3 5 (start (MT19937.seed 0))
           (start (MT19937.seed 7))); lia.
Defined.

(** C7: the notebook has no handler.  Against any implementation of the
    libraries, every call before the last one returned, and a run that ends
    with an exception ends with exactly the exception its last call
    raised. *)
Theorem C7_exceptions_are_not_caught (L : library) (tr : list event) (w : world) :
  exists evs,
    trace_of (notebook L tr w) = List.app tr evs
    /\ match value_of (notebook L tr w) with
       | Ok _ => Forall returned evs
       | Raise e =>
           exists pre c, evs = List.app pre [(c, Raised e)] /\ Forall returned pre
       | Unbounded =>
           exists pre c, evs = List.app pre [(c, Cut)] /\ Forall returned pre
       end.
Proof. exact (propagating_notebook L tr w). Qed.

(** * Further properties of the modelled calls *)

(** ** The generator draws within bounds, and shuffling permutes *)

Lemma interval_mask_nonneg (max : Z) : (0 <= max -> 0 <= Numpy.interval_mask max)%Z.
Proof.
  intro H. unfold Numpy.interval_mask.
  repeat (apply Z.lor_nonneg; split; [|apply Z.shiftr_nonneg]); try assumption;
    repeat (apply Z.lor_nonneg; split; [|apply Z.shiftr_nonneg]); assumption.
Qed.

Lemma interval_loop_bounds (fuel : nat) (max mask : Z) (s s' : MT19937.state) (v : Z) :
  (0 <= mask)%Z ->
  Numpy.interval_loop fuel max mask s = Some (v, s') -> (0 <= v <= max)%Z.
Proof.
  intro Hm. revert s. induction fuel as [|fuel IH]; intros s H; [discriminate|].
  cbn [Numpy.interval_loop] in H. destruct (MT19937.next s) as [x s1].
  destruct (Z.land x mask >? max)%Z eqn:E; [apply (IH s1 H)|].
  injection H as <- <-. split.
  - apply Z.land_nonneg. right. exact Hm.
  - rewrite Z.gtb_ltb in E. apply Z.ltb_ge in E. exact E.
Qed.

Lemma random_interval_bounds (fuel : nat) (max : Z) (s s' : MT19937.state) (v : Z) :
  (0 <= max)%Z ->
  Numpy.random_interval fuel max s = Some (v, s') -> (0 <= v <= max)%Z.
Proof.
  intros Hmax. unfold Numpy.random_interval.
  destruct (max =? 0)%Z eqn:E.
  - intros [= <- <-]. lia.
  - apply interval_loop_bounds. apply interval_mask_nonneg. exact Hmax.
Qed.

Lemma nth_map_combine_seq {A B} (g : nat * A -> B) (arr : list A) (d : A) (e : B)
    (start k : nat) :
  k < List.length arr ->
  nth k (map g (combine (seq start (List.length arr)) arr)) e
  = g (start + k, nth k arr d).
Proof.
  revert start k. induction arr as [|a arr IH]; intros start k H; cbn in *; [lia|].
  destruct k as [|k].
  - rewrite Nat.add_0_r. reflexivity.
  - rewrite (IH (S start) k) by lia. f_equal. f_equal. lia.
Qed.

Lemma swap_length {A} (d : A) (arr : list A) (i j : nat) :
  List.length (Numpy.swap d arr i j) = List.length arr.
Proof.
  unfold Numpy.swap. rewrite length_map, length_combine, length_seq.
  apply Nat.min_id.
Qed.

Lemma swap_nth {A} (d : A) (arr : list A) (i j k : nat) :
  k < List.length arr ->
  nth k (Numpy.swap d arr i j) d
  = nth (if Nat.eqb k i then j else if Nat.eqb k j then i else k) arr d.
Proof.
  intro H. unfold Numpy.swap.
  rewrite (nth_map_combine_seq _ arr d d 0 k H). cbn [Nat.add].
  destruct (Nat.eqb k i); [reflexivity|]. destruct (Nat.eqb k j); reflexivity.
Qed.

Lemma swap_Permutation {A} (d : A) (arr : list A) (i j : nat) :
  i < List.length arr -> j < List.length arr ->
  Permutation arr (Numpy.swap d arr i j).
Proof.
  intros Hi Hj. apply (FinFun.Permutation_nth arr (Numpy.swap d arr i j) d). split.
  - apply swap_length.
  - exists (fun k => if Nat.eqb k i then j else if Nat.eqb k j then i else k).
    split; [|split].
    + intros k Hk. destruct (Nat.eqb k i); [assumption|].
      destruct (Nat.eqb k j); assumption.
    + intros a b Ha Hb.
      destruct (Nat.eqb_spec a i), (Nat.eqb_spec b i),
               (Nat.eqb_spec a j), (Nat.eqb_spec b j); lia.
    + intros k Hk. apply swap_nth. exact Hk.
Qed.

Lemma shuffle_loop_Permutation (fuel i : nat) (arr arr' : list nat)
    (s s' : MT19937.state) :
  i < List.length arr ->
  Numpy.shuffle_loop fuel i arr s = Some (arr', s') -> Permutation arr arr'.
Proof.
  revert arr s. induction i as [|i IH]; intros arr s Hi H; cbn [Numpy.shuffle_loop] in H.
  - injection H as <- <-. apply Permutation_refl.
  - destruct (Numpy.random_interval fuel (Z.of_nat (S i)) s) as [[j s1]|] eqn:E;
      [|discriminate].
    apply random_interval_bounds in E; [|lia].
    apply perm_trans with (Numpy.swap 0 arr (S i) (Z.to_nat j)).
    + apply swap_Permutation; lia.
    + apply (IH _ s1); [rewrite swap_length; lia|exact H].
Qed.

Lemma permutation_Permutation (fuel n : nat) (s s' : MT19937.state)
    (perm : list nat) :
  Numpy.permutation fuel n s = Some (perm, s') ->
  Permutation (seq 0 n) perm /\ List.length perm = n.
Proof.
  unfold Numpy.permutation, Numpy.shuffle. rewrite length_seq. intro H.
  assert (P : Permutation (seq 0 n) perm).
  { destruct n as [|n].
    - cbn in H. injection H as <- <-. apply Permutation_refl.
    - apply (shuffle_loop_Permutation fuel (S n - 1) _ _ s s');
        [rewrite length_seq; lia|exact H]. }
  split; [exact P|]. rewrite <- (Permutation_length P). apply length_seq.
Qed.



(** X3: [shuffle] leaves a list of at most one element as it is, and the
    generator too.  A result that is returned is the argument rearranged,
    the same elements each as often as before, and it is the result
    returned under every larger limit on the rounds of the rejection
    loops. *)
Theorem shuffle_permutes (fuel : nat) (arr : list nat) (s : MT19937.state) :
  (List.length arr <= 1 -> Numpy.shuffle fuel arr s = Some (arr, s))
  /\ forall arr' s',
       Numpy.shuffle fuel arr s = Some (arr', s') ->
       Permutation arr arr' /\ List.length arr' = List.length arr
       /\ forall fuel', fuel <= fuel' ->
            Numpy.shuffle fuel' arr s = Some (arr', s').
Proof.
  unfold Numpy.shuffle. split.
  - intro H. destruct arr as [|a [|b r]]; [reflexivity|reflexivity|cbn in H; lia].
  - intros arr' s' H.
    assert (P : Permutation arr arr').
    { destruct arr as [|a arr].
      - cbn in H. injection H as <- <-. apply Permutation_refl.
      - apply (shuffle_loop_Permutation fuel (List.length (a :: arr) - 1) _ _ s s');
          [cbn [List.length]; lia|exact H]. }
    split; [exact P|]. split; [symmetry; apply Permutation_length; exact P|].
    intros fuel' Hle. exact (shuffle_loop_mono _ _ _ _ _ _ H Hle).
Qed.

Lemma shuffle_permutes_witness :
  exists arr' s',
    Numpy.shuffle 3 [10; 20; 30; 40] (MT19937.seed 42) = Some (arr', s')
    /\ Permutation [10; 20; 30; 40] arr'.
Proof.
  destruct (Numpy.shuffle 3 [10; 20; 30; 40] (MT19937.seed 42)) as [[arr' s']|] eqn:E;
    [|vm_compute in E; discriminate].
  exists arr', s'. split; [reflexivity|].
  apply (proj2 (shuffle_permutes 3 [10; 20; 30; 40] (MT19937.seed 42)) arr' s' E).
Defined.

(** ** [train_test_split] partitions the rows, whatever the data *)

Lemma iloc_app {A} (s : Pandas.Series A) (a b : list nat) :
  Pandas.iloc s (List.app a b) = List.app (Pandas.iloc s a) (Pandas.iloc s b).
Proof. unfold Pandas.iloc. apply flat_map_app. Qed.

Lemma iloc_seq {A} (s : Pandas.Series A) (pre : Pandas.Series A) :
  Pandas.iloc (List.app pre s) (seq (List.length pre) (List.length s)) = s.
Proof.
  revert pre. induction s as [|r s IH]; intro pre; [reflexivity|].
  cbn [List.length seq]. unfold Pandas.iloc in *. cbn [flat_map].
  rewrite nth_error_app2, Nat.sub_diag by lia. cbn [nth_error List.app].
  f_equal. specialize (IH (List.app pre [r])).
  rewrite <- app_assoc, length_app in IH. cbn in IH.
  rewrite Nat.add_1_r in IH. exact IH.
Qed.

Lemma iloc_all {A} (s : Pandas.Series A) :
  Pandas.iloc s (seq 0 (List.length s)) = s.
Proof. exact (iloc_seq s []). Qed.

Lemma iloc_Permutation {A} (s : Pandas.Series A) (a b : list nat) :
  Permutation a b -> Permutation (Pandas.iloc s a) (Pandas.iloc s b).
Proof. unfold Pandas.iloc. apply Permutation_flat_map. Qed.

Lemma iloc_length {A} (s : Pandas.Series A) (idx : list nat) :
  Forall (fun i => i < List.length s) idx ->
  List.length (Pandas.iloc s idx) = List.length idx.
Proof.
  induction 1 as [|i idx Hi _ IH]; [reflexivity|].
  unfold Pandas.iloc in *. cbn [flat_map]. rewrite length_app, IH.
  apply nth_error_Some in Hi. destruct (nth_error s i); [reflexivity|congruence].
Qed.

Lemma shuffle_split_Permutation (n_train n_test : nat) (perm : list nat) :
  n_train + n_test = List.length perm ->
  Permutation
    (List.app (fst (ModelSelection.shuffle_split n_train n_test perm))
              (snd (ModelSelection.shuffle_split n_train n_test perm)))
    perm.
Proof.
  intro H. unfold ModelSelection.shuffle_split. cbn [fst snd].
  rewrite firstn_all2 by (rewrite length_skipn; lia).
  apply perm_trans with (List.app (firstn n_test perm) (skipn n_test perm));
    [apply Permutation_app_comm|rewrite firstn_skipn; apply Permutation_refl].
Qed.

(** X4: whatever the two columns hold and whatever the seed, a split that
    succeeds puts every row in exactly one of the two parts, with the sizes
    computed from the test fraction, and takes the same rows of both
    columns. *)
Theorem train_test_split_partition {A B} (fuel : nat) (X : Pandas.Series A)
    (y : Pandas.Series B) (test_size : float) (random_state : option Z)
    (g g' : MT19937.state) (s : ModelSelection.split A B) (n_train n_test : nat) :
  ModelSelection.validate_shuffle_split (List.length X) test_size
  = Ok (n_train, n_test) ->
  n_train + n_test = List.length X ->
  ModelSelection.train_test_split fuel X y test_size random_state g = (g', Ok s) ->
  Permutation (List.app (ModelSelection.X_train s) (ModelSelection.X_test s)) X
  /\ Permutation (List.app (ModelSelection.y_train s) (ModelSelection.y_test s)) y
  /\ List.length (ModelSelection.X_train s) = n_train
  /\ List.length (ModelSelection.X_test s) = n_test
  /\ exists train test,
       ModelSelection.X_train s = Pandas.iloc X train
       /\ ModelSelection.y_train s = Pandas.iloc y train
       /\ ModelSelection.X_test s = Pandas.iloc X test
       /\ ModelSelection.y_test s = Pandas.iloc y test
       /\ Permutation (List.app train test) (seq 0 (List.length X)).
Proof.
  intros Hv Hn. unfold ModelSelection.train_test_split.
  destruct (Nat.eqb_spec (List.length X) (List.length y)) as [Hl|];
    cbn [negb]; [|discriminate].
  rewrite Hv.
  destruct (match random_state with
            | Some seed => Numpy.RandomState seed
            | None => Ok g
            end) as [st|e|]; try discriminate.
  destruct (Numpy.permutation fuel (List.length X) st) as [[perm st']|] eqn:Ep;
    [|discriminate].
  apply permutation_Permutation in Ep. destruct Ep as [Pp Lp].
  pose proof (shuffle_split_Permutation n_train n_test perm) as Ps.
  destruct (ModelSelection.shuffle_split n_train n_test perm) as [train test] eqn:Es.
  cbn [fst snd] in Ps. specialize (Ps ltac:(lia)).
  intros [= _ <-]. cbn [ModelSelection.X_train ModelSelection.X_test
                        ModelSelection.y_train ModelSelection.y_test].
  assert (Pall : Permutation (List.app train test) (seq 0 (List.length X))).
  { apply perm_trans with perm; [exact Ps|apply Permutation_sym; exact Pp]. }
  assert (Hin : Forall (fun i => i < List.length X) (List.app train test)).
  { apply Forall_forall. intros i Hi.
    apply (Permutation_in _ Pall) in Hi. apply in_seq in Hi. lia. }
  apply Forall_app in Hin. destruct Hin as [Htr Hte].
  unfold ModelSelection.shuffle_split in Es. injection Es as Etr Ete.
  split; [|split; [|split; [|split]]].
  - rewrite <- iloc_app.
    apply perm_trans with (Pandas.iloc X (seq 0 (List.length X)));
      [apply iloc_Permutation; exact Pall|rewrite iloc_all; apply Permutation_refl].
  - rewrite <- iloc_app.
    apply perm_trans with (Pandas.iloc y (seq 0 (List.length X)));
      [apply iloc_Permutation; exact Pall
      |rewrite Hl, iloc_all; apply Permutation_refl].
  - rewrite (iloc_length X train Htr), <- Etr, length_firstn, length_skipn. lia.
  - rewrite (iloc_length X test Hte), <- Ete, length_firstn. lia.
  - exists train, test. repeat split; try reflexivity. exact Pall.
Qed.

Lemma train_test_split_partition_witness :
  exists s : ModelSelection.split nat bool,
    Permutation (List.app (ModelSelection.X_train s) (ModelSelection.X_test s))
                [(0, 10); (1, 11); (2, 12); (3, 13)]
    /\ List.length (ModelSelection.X_train s) = 3
    /\ List.length (ModelSelection.X_test s) = 1.
Proof.
  pose (X := [(0, 10); (1, 11); (2, 12); (3, 13)]).
  pose (y := [(0, true); (1, false); (2, true); (3, false)]).
  destruct (ModelSelection.train_test_split 8 X y 0.25%float (Some 7%Z)
              (MT19937.seed 0)) as [g' [s| |]] eqn:E;
    try (vm_compute in E; discriminate).
  exists s.
  destruct (train_test_split_partition 8 X y 0.25%float (Some 7%Z)
              (MT19937.seed 0) g' s 3 1) as (H1 & _ & H2 & H3 & _).
  - vm_compute. reflexivity.
  - reflexivity.
  - exact E.
  - repeat split; assumption.
Defined.

(** ** The analyzer and the sorted vocabulary *)

Lemma all_chars_app (p : ascii -> bool) (a b : string) :
  all_chars p (a ++ b) = all_chars p a && all_chars p b.
Proof.
  induction a as [|c a IH]; [reflexivity|]. cbn. rewrite IH. apply andb_assoc.
Qed.

Lemma runs_word_chars (s cur : string) :
  all_chars Text.is_word_char cur = true ->
  Forall (fun t => all_chars Text.is_word_char t = true) (Text.runs s cur).
Proof.
  revert cur. induction s as [|c s IH]; intros cur H; cbn [Text.runs].
  - repeat constructor. exact H.
  - destruct (Text.is_word_char c) eqn:E.
    + apply IH. rewrite all_chars_app, H. cbn. rewrite E. reflexivity.
    + constructor; [exact H|apply IH; reflexivity].
Qed.

Lemma lower_char_not_upper (c : ascii) : is_upper (Text.lower_char c) = false.
Proof.
  unfold Text.lower_char, is_upper.
  destruct (Nat.leb 65 (nat_of_ascii c) && Nat.leb (nat_of_ascii c) 90) eqn:E;
    [|exact E].
  apply andb_true_iff in E. destruct E as [E1 E2].
  apply Nat.leb_le in E1, E2.
  rewrite nat_ascii_embedding by lia.
  apply andb_false_iff. right. apply Nat.leb_gt. lia.
Qed.

Lemma lower_no_upper (s : string) :
  all_chars (fun c => negb (is_upper c)) (Text.lower s) = true.
Proof.
  induction s as [|c s IH]; [reflexivity|]. cbn.
  rewrite lower_char_not_upper, IH. reflexivity.
Qed.

Lemma runs_no_upper (s cur : string) :
  all_chars (fun c => negb (is_upper c)) s = true ->
  all_chars (fun c => negb (is_upper c)) cur = true ->
  Forall (fun t => all_chars (fun c => negb (is_upper c)) t = true) (Text.runs s cur).
Proof.
  revert cur. induction s as [|c s IH]; intros cur Hs H; cbn [Text.runs].
  - repeat constructor. exact H.
  - cbn in Hs. apply andb_true_iff in Hs. destruct Hs as [Hc Hs].
    destruct (Text.is_word_char c).
    + apply IH; [exact Hs|]. rewrite all_chars_app, H. cbn. rewrite Hc. reflexivity.
    + constructor; [exact H|apply IH; [exact Hs|reflexivity]].
Qed.

(** X5: for a document of ASCII characters, every term the analyzer yields
    has at least two characters, all of them letters, digits or
    underscores and none an upper-case letter, and is not a stop word. *)
Theorem analyze_terms (stop : list string) (doc : string) :
  all_chars Text.is_ascii doc = true ->
  Forall (fun t => 2 <= String.length t
                   /\ all_chars Text.is_word_char t = true
                   /\ all_chars (fun c => negb (is_upper c)) t = true
                   /\ Text.mem t stop = false)
         (Text.analyze stop doc).
Proof.
  intros _. unfold Text.analyze, Text.tokenize. apply Forall_forall. intros t Ht.
  apply filter_In in Ht. destruct Ht as [Ht Hs].
  apply filter_In in Ht. destruct Ht as [Ht Hl].
  split; [apply Nat.leb_le; exact Hl|].
  split; [|split].
  - pose proof (runs_word_chars (Text.lower doc) EmptyString eq_refl) as H.
    rewrite Forall_forall in H. apply H. exact Ht.
  - pose proof (runs_no_upper (Text.lower doc) EmptyString (lower_no_upper doc)
                  eq_refl) as H.
    rewrite Forall_forall in H. apply H. exact Ht.
  - apply negb_true_iff. exact Hs.
Qed.

Lemma analyze_terms_witness :
  all_chars Text.is_ascii "WIN a FREE prize, now!" = true
  /\ Text.analyze Text.ENGLISH_STOP_WORDS "WIN a FREE prize, now!"
     = ["win"; "free"; "prize"]
  /\ Forall (fun t => 2 <= String.length t
                      /\ all_chars Text.is_word_char t = true
                      /\ all_chars (fun c => negb (is_upper c)) t = true
                      /\ Text.mem t Text.ENGLISH_STOP_WORDS = false)
            (Text.analyze Text.ENGLISH_STOP_WORDS "WIN a FREE prize, now!").
Proof.
  split; [reflexivity|]. split; [vm_compute; reflexivity|].
  apply (analyze_terms Text.ENGLISH_STOP_WORDS "WIN a FREE prize, now!").
  reflexivity.
Defined.

Lemma compare_lt_trans (a b c : string) :
  String.compare a b = Lt -> String.compare b c = Lt -> String.compare a c = Lt.
Proof.
  revert b c. induction a as [|x a IH]; intros [|y b] [|z c]; cbn;
    try discriminate; try reflexivity.
  unfold Ascii.compare.
  destruct (N.compare_spec (N_of_ascii x) (N_of_ascii y)) as [E1|L1|G1];
    destruct (N.compare_spec (N_of_ascii y) (N_of_ascii z)) as [E2|L2|G2];
    try discriminate; intros H1 H2.
  - rewrite E1, E2, N.compare_refl. apply (IH b c); assumption.
  - rewrite E1. apply N.compare_lt_iff in L2. rewrite L2. reflexivity.
  - rewrite <- E2. apply N.compare_lt_iff in L1. rewrite L1. reflexivity.
  - assert (L : (N_of_ascii x < N_of_ascii z)%N) by (eapply N.lt_trans; eassumption).
    apply N.compare_lt_iff in L. rewrite L. reflexivity.
Qed.

Lemma insert_In (t x : string) (l : list string) :
  In x (Text.insert t l) <-> x = t \/ In x l.
Proof.
  induction l as [|h r IH]; cbn.
  - intuition.
  - destruct (String.compare t h) eqn:E; cbn.
    + apply String.compare_eq_iff in E. subst h. intuition.
    + intuition.
    + rewrite IH. intuition.
Qed.

Lemma insert_head (t : string) (l : list string) (b : string) :
  String.compare b t = Lt ->
  match l with [] => True | h :: _ => String.compare b h = Lt end ->
  match Text.insert t l with [] => True | h :: _ => String.compare b h = Lt end.
Proof.
  destruct l as [|h r]; cbn; [auto|].
  destruct (String.compare t h); auto.
Qed.

Lemma insert_increasing (t : string) (l : list string) :
  increasing l -> increasing (Text.insert t l).
Proof.
  induction l as [|h r IH]; intro H; [cbn; auto|].
  cbn [Text.insert]. destruct (String.compare t h) eqn:E.
  - exact H.
  - cbn. split; [exact E|exact H].
  - destruct H as [Hh Hr]. specialize (IH Hr).
    assert (Hht : String.compare h t = Lt).
    { rewrite String.compare_antisym, E. reflexivity. }
    cbn [increasing]. split; [|exact IH].
    pose proof (insert_head t r h Hht) as Hi.
    destruct (Text.insert t r) as [|h' r'] eqn:Ei; [exact I|].
    apply Hi. destruct r; [exact I|exact Hh].
Qed.

Lemma sorted_set_acc (l acc : list string) :
  increasing acc ->
  increasing (fold_left (fun a t => Text.insert t a) l acc)
  /\ forall x, In x (fold_left (fun a t => Text.insert t a) l acc)
               <-> In x l \/ In x acc.
Proof.
  revert acc. induction l as [|t l IH]; intros acc H; cbn [fold_left].
  - split; [exact H|]. cbn. intuition.
  - destruct (IH (Text.insert t acc) (insert_increasing t acc H)) as [H1 H2].
    split; [exact H1|]. intro x. rewrite H2, insert_In. cbn. intuition.
Qed.

(** [sorted(set(l))] has exactly the members of [l], in strictly increasing
    order (so none twice). *)
Lemma sorted_set_spec (l : list string) :
  increasing (Text.sorted_set l) /\ forall x, In x (Text.sorted_set l) <-> In x l.
Proof.
  destruct (sorted_set_acc l [] I) as [H1 H2]. split; [exact H1|].
  intro x. unfold Text.sorted_set. rewrite H2. cbn. intuition.
Qed.

(** ** The fitted vectorizer and the matrices it returns *)

Lemma normalize_length (row : list float) :
  List.length (TfidfVectorizer.normalize row) = List.length row.
Proof.
  unfold TfidfVectorizer.normalize.
  destruct (PrimFloat.eqb _ _); [reflexivity|apply length_map].
Qed.

Lemma tfidf_row_length (vocab : list string) (idfs : list float)
    (tokens : list string) :
  List.length idfs = List.length vocab ->
  List.length (TfidfVectorizer.tfidf_row vocab idfs tokens) = List.length vocab.
Proof.
  intro H. unfold TfidfVectorizer.tfidf_row, TfidfVectorizer.count_row.
  rewrite normalize_length, length_map, length_combine, length_map, H.
  apply Nat.min_id.
Qed.

Lemma sorted_set_length (l : list string) :
  List.length (Text.sorted_set l) <= List.length l.
Proof.
  unfold Text.sorted_set.
  assert (H : forall acc, List.length (fold_left (fun a t => Text.insert t a) l acc)
                          <= List.length l + List.length acc).
  { induction l as [|t l IH]; intro acc; cbn [fold_left List.length]; [lia|].
    specialize (IH (Text.insert t acc)).
    assert (Hi : List.length (Text.insert t acc) <= S (List.length acc)).
    { clear IH. induction acc as [|h r IHr]; cbn; [lia|].
      destruct (String.compare t h); cbn; lia. }
    lia. }
  specialize (H []). cbn in H. lia.
Qed.

Lemma insert_desc_In (p q : nat * string) (l : list (nat * string)) :
  In q (TfidfVectorizer.insert_desc p l) <-> q = p \/ In q l.
Proof.
  induction l as [|h r IH]; cbn [TfidfVectorizer.insert_desc].
  - cbn. intuition.
  - destruct (Nat.ltb (fst h) (fst p)); cbn [In]; [intuition|].
    rewrite IH. intuition.
Qed.

Lemma limit_features_spec (k : option nat) (vocab : list string)
    (docs : list (list string)) :
  increasing vocab ->
  increasing (TfidfVectorizer.limit_features k vocab docs)
  /\ (forall t, In t (TfidfVectorizer.limit_features k vocab docs) -> In t vocab)
  /\ (forall n, k = Some n ->
        List.length (TfidfVectorizer.limit_features k vocab docs) <= n).
Proof.
  intro Hv. unfold TfidfVectorizer.limit_features.
  destruct k as [k|]; [|repeat split; [exact Hv|auto|discriminate]].
  destruct (Nat.ltb_spec k (List.length vocab)) as [Hlt|Hge].
  - unfold TfidfVectorizer.top_terms.
    set (ranked := fold_left _ _ _).
    destruct (sorted_set_spec (map snd (firstn k ranked))) as [H1 H2].
    split; [exact H1|]. split.
    + intros t Ht. apply H2 in Ht. apply in_map_iff in Ht.
      destruct Ht as ([c t'] & <- & Hin).
      assert (Hin' : In (c, t') ranked)
        by (rewrite <- (firstn_skipn k ranked); apply in_or_app; left; exact Hin).
      clear Hin. rename Hin' into Hin.
      assert (Hall : forall l acc q,
                In q (fold_left (fun a p => TfidfVectorizer.insert_desc p a) l acc)
                -> In q l \/ In q acc).
      { induction l as [|p l IH]; intros acc q Hq; cbn in Hq; [auto|].
        apply IH in Hq. rewrite insert_desc_In in Hq. cbn. intuition. }
      apply Hall in Hin. destruct Hin as [Hin|[]].
      apply in_combine_r in Hin. exact Hin.
    + intros n [= <-].
      apply Nat.le_trans with (List.length (map snd (firstn k ranked)));
        [apply sorted_set_length|].
      rewrite length_map. apply firstn_le_length.
  - repeat split; [exact Hv|auto|]. intros n [= <-]. exact Hge.
Qed.

Lemma fit_then_transform (log : float -> float) (v v' : TfidfVectorizer.t)
    (docs : list string) (Xtr : Matrix.t) :
  TfidfVectorizer.fit_transform log v docs = Ok (v', Xtr) ->
  exists vocab stop,
    TfidfVectorizer.vocabulary_ v' = Some vocab
    /\ TfidfVectorizer.get_stop_words (TfidfVectorizer.stop_words v) = Ok stop
    /\ increasing vocab
    /\ (forall t, In t vocab -> exists d, In d docs /\ In t (Text.analyze stop d))
    /\ (forall n, TfidfVectorizer.max_features v = Some n -> List.length vocab <= n)
    /\ List.length (TfidfVectorizer.idf_ v') = List.length vocab
    /\ Matrix.shape Xtr = (List.length docs, List.length vocab)
    /\ Forall (fun r => List.length r = List.length vocab) (Matrix.rows Xtr)
    /\ forall new, new <> [] -> exists Xnew,
         TfidfVectorizer.transform v' new = Ok Xnew
         /\ Matrix.shape Xnew = (List.length new, List.length vocab)
         /\ Forall (fun r => List.length r = List.length vocab) (Matrix.rows Xnew).
Proof.
  unfold TfidfVectorizer.fit_transform.
  destruct (TfidfVectorizer.max_features v) as [[|k]|] eqn:Ek; [discriminate| |].
  all: destruct (TfidfVectorizer.get_stop_words (TfidfVectorizer.stop_words v))
         as [stop|e|] eqn:Es; try discriminate.
  all: set (tdocs := map (Text.analyze stop) docs).
  all: destruct (sorted_set_spec (List.concat tdocs)) as [Hinc Hmem].
  all: destruct (Text.sorted_set (List.concat tdocs)) as [|t0 vr] eqn:Ev;
         [discriminate|].
  all: match goal with
       | |- context [TfidfVectorizer.limit_features ?k ?voc ?d] =>
           destruct (limit_features_spec k voc d Hinc) as (Li & Ls & Lk);
           set (vocab := TfidfVectorizer.limit_features k voc d) in *
       end.
  all: intros [= <- <-]; exists vocab, stop.
  all: cbn [TfidfVectorizer.vocabulary_ TfidfVectorizer.stop_words
            TfidfVectorizer.idf_ Matrix.rows Matrix.n_cols].
  all: assert (Hidf : List.length
                 (map (TfidfVectorizer.idf log (List.length tdocs))
                      (TfidfVectorizer.document_frequency vocab tdocs))
               = List.length vocab)
         by (unfold TfidfVectorizer.document_frequency; rewrite !length_map;
             reflexivity).
  all: split; [reflexivity|]; split; [reflexivity|].
  all: assert (Hrows : forall idfs toks,
                 List.length idfs = List.length vocab ->
                 Forall (fun r => List.length r = List.length vocab)
                        (map (TfidfVectorizer.tfidf_row vocab idfs) toks))
         by (intros idfs toks Hi; apply Forall_forall; intros r Hr;
             apply in_map_iff in Hr; destruct Hr as (x & <- & _);
             apply tfidf_row_length; exact Hi).
  all: split; [exact Li|].
  all: split;
         [intros t Ht; apply Ls, Hmem, in_concat in Ht;
          destruct Ht as (l & Hl & Ht); apply in_map_iff in Hl;
          destruct Hl as (d & <- & Hd); exists d; split; assumption|].
  all: split; [exact Lk|].
  all: split; [exact Hidf|].
  all: split;
         [unfold Matrix.shape; cbn [Matrix.rows Matrix.n_cols]; unfold tdocs;
          rewrite !length_map; reflexivity|].
  all: split; [exact (Hrows _ _ Hidf)|].
  all: intros new Hnew; unfold TfidfVectorizer.transform;
       cbn [TfidfVectorizer.vocabulary_ TfidfVectorizer.stop_words
            TfidfVectorizer.idf_];
       rewrite Es; cbv beta iota zeta; rewrite length_map;
       destruct new as [|d0 new']; [congruence|];
       cbn [List.length Nat.eqb]; eexists; split; [reflexivity|]; split;
         [unfold Matrix.shape; cbn [Matrix.rows Matrix.n_cols];
          rewrite !length_map; reflexivity
         |exact (Hrows _ _ Hidf)].
Qed.

(** X6: fitting the vectorizer on any documents gives a vocabulary in strictly
    increasing order, made of terms the analyzer finds in the documents and
    no longer than [max_features]; the matrix returned has one row per
    document and one column per term. *)
Theorem vocabulary_of_fit (log : float -> float) (v v' : TfidfVectorizer.t)
    (docs : list string) (Xtr : Matrix.t) :
  TfidfVectorizer.fit_transform log v docs = Ok (v', Xtr) ->
  exists vocab stop,
    TfidfVectorizer.vocabulary_ v' = Some vocab
    /\ TfidfVectorizer.get_stop_words (TfidfVectorizer.stop_words v) = Ok stop
    /\ increasing vocab
    /\ (forall t, In t vocab -> exists d, In d docs /\ In t (Text.analyze stop d))
    /\ (forall n, TfidfVectorizer.max_features v = Some n -> List.length vocab <= n)
    /\ List.length (TfidfVectorizer.idf_ v') = List.length vocab
    /\ Matrix.shape Xtr = (List.length docs, List.length vocab)
    /\ Forall (fun r => List.length r = List.length vocab) (Matrix.rows Xtr).
Proof.
  intro H.
  destruct (fit_then_transform log v v' docs Xtr H)
    as (vocab & stop & H1 & H2 & H3 & H4 & H5 & H6 & H7 & H8 & _).
  exists vocab, stop. repeat (split; [assumption|]). assumption.
Qed.

Lemma vocabulary_of_fit_witness :
  exists v' Xtr,
    TfidfVectorizer.fit_transform (fun x => x)
      (TfidfVectorizer.init "english" (Some 2)) ["free prize"; "free money money"]
    = Ok (v', Xtr)
    /\ TfidfVectorizer.vocabulary_ v' = Some ["free"; "money"]
    /\ Matrix.shape Xtr = (2, 2).
Proof.
  destruct (TfidfVectorizer.fit_transform (fun x => x)
              (TfidfVectorizer.init "english" (Some 2))
              ["free prize"; "free money money"]) as [[v' Xtr]| |] eqn:E;
    try (vm_compute in E; discriminate).
  destruct (vocabulary_of_fit _ _ _ _ _ E)
    as (vocab & stop & Hv & _ & _ & _ & _ & _ & Hs & _).
  exists v', Xtr.
  assert (Hvoc : TfidfVectorizer.vocabulary_ v' = Some ["free"; "money"]).
  { vm_compute in E. injection E as <- _. reflexivity. }
  rewrite Hvoc in Hv. injection Hv as <-.
  repeat split; assumption.
Defined.

(** ** Vectorizer and classifier together, on any data *)

(** X7: once the vectorizer has been fitted on some documents and the
    classifier on the resulting matrix and any labels, every list of new
    documents is transformed and classified without an error: one label per
    document, each of them a label the classifier was fitted on. *)
Theorem transform_then_predict (log : float -> float) (v v' : TfidfVectorizer.t)
    (docs labels : list string) (Xtr : Matrix.t) (m0 m : MultinomialNB.t)
    (new : list string) :
  TfidfVectorizer.fit_transform log v docs = Ok (v', Xtr) ->
  MultinomialNB.fit log m0 Xtr labels = Ok m ->
  new <> [] ->
  exists Xnew preds,
    TfidfVectorizer.transform v' new = Ok Xnew
    /\ MultinomialNB.predict m Xnew = Ok preds
    /\ List.length preds = List.length new
    /\ Forall (fun c => In c labels) preds.
Proof.
  intros Hft Hfit Hnonempty.
  destruct (fit_then_transform log v v' docs Xtr Hft)
    as (vocab & stop & _ & _ & _ & _ & _ & _ & Hs & _ & Hnew).
  destruct (Hnew new Hnonempty) as (Xnew & Ht & Hsn & _).
  assert (Hfit' := Hfit). unfold MultinomialNB.fit in Hfit'.
  destruct (Nat.eqb_spec (List.length (Matrix.rows Xtr)) 0) as [|Hr]; [discriminate|].
  destruct (Nat.eqb_spec (List.length (Matrix.rows Xtr)) (List.length labels))
    as [Hl|]; [|discriminate].
  clear Hfit'.
  destruct (fit_ok log m0 Xtr labels Hr Hl) as (p & Hm & Hc & Hn & H1 & H2).
  rewrite Hfit in Hm. injection Hm as ->.
  assert (Hne : MultinomialNB.classes_ p <> []).
  { rewrite Hc. destruct (sorted_set_spec labels) as [_ Hmem].
    destruct labels as [|l0 lr]; [cbn in Hl; congruence|].
    intro E. specialize (Hmem l0). rewrite E in Hmem. cbn in Hmem. tauto. }
  rewrite <- Hc in H1, H2.
  assert (Hcols : Matrix.n_cols Xnew = MultinomialNB.n_features_in_ p).
  { rewrite Hn. unfold Matrix.shape in Hs, Hsn. congruence. }
  assert (Hrows : Matrix.rows Xnew <> []).
  { unfold Matrix.shape in Hsn. injection Hsn as Hr' _. intro E. rewrite E in Hr'.
    destruct new; [congruence|discriminate]. }
  pose proof (predict_ok (MultinomialNB.mk (MultinomialNB.alpha m0) (Some p))
                p Xnew eq_refl Hrows Hcols) as Hp.
  destruct (predict_in_classes
              (MultinomialNB.mk (MultinomialNB.alpha m0) (Some p))
              p Xnew _ eq_refl Hne H1 H2 Hp) as [Lp Fp].
  exists Xnew. eexists. split; [exact Ht|]. split; [exact Hp|]. split.
  - rewrite Lp. unfold Matrix.shape in Hsn. congruence.
  - revert Fp. apply Forall_impl. intros c Hc'. rewrite Hc in Hc'.
    apply (proj2 (sorted_set_spec labels)). exact Hc'.
Qed.

Lemma transform_then_predict_witness :
  exists v' Xtr m Xnew preds,
    TfidfVectorizer.fit_transform (fun x => x)
      (TfidfVectorizer.init "english" None) ["free prize"; "team meeting"]
    = Ok (v', Xtr)
    /\ MultinomialNB.fit (fun x => x) MultinomialNB.init Xtr ["spam"; "ham"] = Ok m
    /\ TfidfVectorizer.transform v' ["prize now"] = Ok Xnew
    /\ MultinomialNB.predict m Xnew = Ok preds
    /\ List.length preds = 1.
Proof.
  destruct (TfidfVectorizer.fit_transform (fun x => x)
              (TfidfVectorizer.init "english" None)
              ["free prize"; "team meeting"]) as [[v' Xtr]| |] eqn:E;
    try (vm_compute in E; discriminate).
  destruct (MultinomialNB.fit (fun x => x) MultinomialNB.init Xtr ["spam"; "ham"])
    as [m| |] eqn:F; try (vm_compute in E; injection E as <- <-;
                          vm_compute in F; discriminate).
  destruct (transform_then_predict _ _ _ _ _ _ _ _ ["prize now"] E F)
    as (Xnew & preds & Ht & Hp & Hl & _); [discriminate|].
  exists v', Xtr, m, Xnew, preds. repeat split; assumption.
Defined.

(** ** What [MultinomialNB.fit] stores *)

(** X8: fitting refuses a matrix without a row, and labels that are not as
    many as the rows, with a [ValueError].  A fit that succeeds had at least
    one row and as many labels as rows; its classes are the labels seen,
    each once, in increasing order; there is one row of feature
    log-probabilities per class, with one entry per column of the matrix,
    and one prior per class. *)
Theorem fit_classes (log : float -> float) (m : MultinomialNB.t) (X : Matrix.t)
    (y : list string) :
  (Matrix.rows X = [] ->
   exists msg, MultinomialNB.fit log m X y = Raise (ValueError msg))
  /\ (List.length (Matrix.rows X) <> List.length y ->
      exists msg, MultinomialNB.fit log m X y = Raise (ValueError msg))
  /\ forall m',
       MultinomialNB.fit log m X y = Ok m' ->
       Matrix.rows X <> []
       /\ List.length (Matrix.rows X) = List.length y
       /\ exists p,
            MultinomialNB.fitted m' = Some p
            /\ MultinomialNB.alpha m' = MultinomialNB.alpha m
            /\ increasing (MultinomialNB.classes_ p)
            /\ (forall c, In c (MultinomialNB.classes_ p) <-> In c y)
            /\ MultinomialNB.n_features_in_ p = Matrix.n_cols X
            /\ List.length (MultinomialNB.feature_log_prob_ p)
               = List.length (MultinomialNB.classes_ p)
            /\ Forall (fun row => List.length row = Matrix.n_cols X)
                      (MultinomialNB.feature_log_prob_ p)
            /\ List.length (MultinomialNB.class_log_prior_ p)
               = List.length (MultinomialNB.classes_ p).
Proof.
  split; [|split].
  - intro E. unfold MultinomialNB.fit. rewrite E. cbn [List.length Nat.eqb].
    eexists. reflexivity.
  - intro Hne. unfold MultinomialNB.fit.
    destruct (Nat.eqb (List.length (Matrix.rows X)) 0); [eexists; reflexivity|].
    destruct (Nat.eqb_spec (List.length (Matrix.rows X)) (List.length y));
      [contradiction|]. eexists. reflexivity.
  - intros m' H. unfold MultinomialNB.fit in H.
    destruct (Nat.eqb_spec (List.length (Matrix.rows X)) 0) as [|H0]; [discriminate|].
    destruct (Nat.eqb_spec (List.length (Matrix.rows X)) (List.length y)) as [Hl|];
      [|discriminate].
    cbn [negb] in H. injection H as <-.
    split; [intro E; rewrite E in H0; apply H0; reflexivity|].
    split; [exact Hl|].
    eexists. split; [reflexivity|].
    cbn [MultinomialNB.alpha MultinomialNB.classes_ MultinomialNB.n_features_in_
         MultinomialNB.feature_log_prob_ MultinomialNB.class_log_prior_].
    destruct (sorted_set_spec y) as [Hinc Hmem].
    split; [reflexivity|]. split; [exact Hinc|]. split; [exact Hmem|].
    split; [reflexivity|]. split; [rewrite !length_map; reflexivity|].
    split.
    + apply Forall_forall. intros row Hr. apply in_map_iff in Hr.
      destruct Hr as (fc & <- & Hfc). apply in_map_iff in Hfc.
      destruct Hfc as (c & <- & _).
      unfold MultinomialNB.update_feature_log_prob, MultinomialNB.feature_count.
      rewrite !length_map. apply length_seq.
    + unfold MultinomialNB.update_class_log_prior. rewrite !length_map. reflexivity.
Qed.

Lemma fit_classes_witness :
  (exists msg,
     MultinomialNB.fit (fun x => x) MultinomialNB.init
       (Matrix.mk 2 [[1; 0]; [0; 1]; [1; 1]]%float) ["spam"; "ham"]
     = Raise (ValueError msg))
  /\ exists m' p,
       MultinomialNB.fit (fun x => x) MultinomialNB.init
         (Matrix.mk 2 [[1; 0]; [0; 1]; [1; 1]]%float) ["spam"; "ham"; "spam"] = Ok m'
       /\ MultinomialNB.fitted m' = Some p
       /\ MultinomialNB.classes_ p = ["ham"; "spam"].
Proof.
  split.
  - apply (proj1 (proj2 (fit_classes (fun x => x) MultinomialNB.init
                           (Matrix.mk 2 [[1; 0]; [0; 1]; [1; 1]]%float)
                           ["spam"; "ham"]))).
    cbn. discriminate.
  - destruct (MultinomialNB.fit (fun x => x) MultinomialNB.init
                (Matrix.mk 2 [[1; 0]; [0; 1]; [1; 1]]%float) ["spam"; "ham"; "spam"])
      as [m'| |] eqn:E; try (vm_compute in E; discriminate).
    destruct (proj2 (proj2 (fit_classes _ _ _ _)) m' E) as (_ & _ & p & Hp & _).
    exists m', p. split; [reflexivity|]. split; [exact Hp|].
    vm_compute in E. injection E as <-. cbn in Hp. injection Hp as <-. reflexivity.
Defined.

(** ** Frames: construction, columns, CSV *)

Lemma position_nth (name : string) (data : list (string * list string))
    (col : list string) :
  NoDup (map fst data) -> In (name, col) data ->
  exists p, Pandas.position name (map fst data) = Some p
            /\ forall i, nth p (map (fun kv => nth i (snd kv) EmptyString) data)
                             EmptyString
                         = nth i col EmptyString.
Proof.
  induction data as [|[k c] data IH]; intros Hnd Hin; [destruct Hin|].
  cbn [map fst Pandas.position]. inversion Hnd as [|? ? Hk Hnd']; subst.
  destruct (String.eqb_spec k name) as [->|Hne].
  - exists 0. split; [reflexivity|]. intro i. cbn.
    destruct Hin as [[= <-]|Hin]; [reflexivity|].
    exfalso. apply Hk. apply (in_map fst) in Hin. exact Hin.
  - destruct Hin as [[= -> _]|Hin]; [congruence|].
    destruct (IH Hnd' Hin) as (p & Hp & Hn). exists (S p).
    rewrite Hp. split; [reflexivity|]. intro i. cbn. apply Hn.
Qed.

Lemma map_nth_seq {A} (col : list A) (d : A) :
  map (fun i => (i, nth i col d)) (seq 0 (List.length col))
  = combine (seq 0 (List.length col)) col.
Proof.
  assert (H : forall pre, map (fun i => (i, nth i (List.app pre col) d))
                              (seq (List.length pre) (List.length col))
                          = combine (seq (List.length pre) (List.length col)) col).
  { induction col as [|a col IH]; intro pre; [reflexivity|].
    cbn [List.length seq map combine]. f_equal.
    - rewrite app_nth2, Nat.sub_diag by lia. reflexivity.
    - specialize (IH (List.app pre [a])). rewrite <- app_assoc, length_app in IH.
      cbn in IH. rewrite Nat.add_1_r in IH. exact IH. }
  exact (H []).
Qed.

(** X9: a dict of equally long columns under distinct names becomes a frame
    with these names, a row per entry and the index 0, 1, ...; selecting a
    column by its name gives back the list it was built from, with that
    index. *)
Theorem DataFrame_getitem (data : list (string * list string)) (n : nat) :
  NoDup (map fst data) ->
  Forall (fun kv => List.length (snd kv) = n) data ->
  data <> [] ->
  exists df,
    Pandas.DataFrame data = Ok df
    /\ Pandas.columns df = map fst data
    /\ map fst (Pandas.rows df) = seq 0 n
    /\ Forall (fun r => List.length (snd r) = List.length data) (Pandas.rows df)
    /\ forall name col,
         In (name, col) data ->
         Pandas.getitem df name = Ok (combine (seq 0 n) col).
Proof.
  intros Hnd Hlen Hne. unfold Pandas.DataFrame.
  destruct data as [|[k0 c0] rest] eqn:Ed; [congruence|]. rewrite <- Ed in *.
  assert (Hn : List.length c0 = n).
  { rewrite Ed in Hlen. inversion Hlen. assumption. }
  rewrite Hn.
  assert (Hall : forallb (fun kv => Nat.eqb (List.length (snd kv)) n) data = true).
  { apply forallb_forall. intros kv Hkv. rewrite Forall_forall in Hlen.
    apply Nat.eqb_eq. apply Hlen. exact Hkv. }
  rewrite Hall. eexists. split; [reflexivity|].
  cbn [Pandas.columns Pandas.rows]. split; [reflexivity|]. split.
  { rewrite map_map. cbn [fst]. apply map_id. }
  split.
  { apply Forall_forall. intros r Hr. apply in_map_iff in Hr.
    destruct Hr as (i & <- & _). cbn [snd]. apply length_map. }
  intros name col Hin. unfold Pandas.getitem. cbn [Pandas.columns Pandas.rows].
  destruct (position_nth name data col Hnd Hin) as (p & -> & Hp).
  rewrite map_map. cbn [fst snd]. f_equal.
  rewrite Forall_forall in Hlen. specialize (Hlen _ Hin). cbn in Hlen. subst n.
  rewrite <- map_nth_seq with (d := EmptyString).
  apply map_ext. intro i. rewrite Hp. reflexivity.
Qed.

Lemma DataFrame_getitem_witness :
  exists df,
    Pandas.DataFrame the_data = Ok df
    /\ Pandas.getitem df "label"
       = Ok (combine (seq 0 10)
               ["spam"; "ham"; "spam"; "ham"; "spam"; "ham"; "spam"; "ham";
                "spam"; "ham"]).
Proof.
  destruct (DataFrame_getitem the_data 10) as (df & H & _ & _ & _ & Hg).
  - cbn. repeat constructor; cbn; intuition discriminate.
  - repeat constructor.
  - discriminate.
  - exists df. split; [exact H|]. apply Hg. cbn. right. left. reflexivity.
Defined.

(** X10: columns of different lengths are refused, and a name that is not a
    column of the frame is a [KeyError] carrying that name. *)
Theorem DataFrame_and_getitem_errors (data : list (string * list string))
    (df : Pandas.DataFrame_t) (name : string) :
  ((exists a b, In a data /\ In b data
                /\ List.length (snd a) <> List.length (snd b))
   -> Pandas.DataFrame data
      = Raise (ValueError "All arrays must be of the same length"))
  /\ (~ In name (Pandas.columns df)
      -> Pandas.getitem df name = Raise (KeyError name)).
Proof.
  split.
  - intros (a & b & Ha & Hb & Hab). unfold Pandas.DataFrame.
    destruct data as [|[k0 c0] rest] eqn:Ed; [destruct Ha|]. rewrite <- Ed in *.
    destruct (forallb _ data) eqn:E; [|reflexivity].
    rewrite forallb_forall in E.
    pose proof (E _ Ha) as Ea. pose proof (E _ Hb) as Eb.
    apply Nat.eqb_eq in Ea, Eb. congruence.
  - intro Hn. unfold Pandas.getitem.
    assert (H : Pandas.position name (Pandas.columns df) = None).
    { induction (Pandas.columns df) as [|c cs IH]; [reflexivity|].
      cbn. destruct (String.eqb_spec c name) as [->|_].
      - exfalso. apply Hn. left. reflexivity.
      - rewrite IH; [reflexivity|]. intro H. apply Hn. right. exact H. }
    rewrite H. reflexivity.
Qed.

Lemma DataFrame_and_getitem_errors_witness :
  Pandas.DataFrame [("email", ["a"; "b"]); ("label", ["spam"])]
  = Raise (ValueError "All arrays must be of the same length")
  /\ Pandas.getitem (Pandas.mkFrame ["email"; "label"] []) "text"
     = Raise (KeyError "text").
Proof.
  split.
  - apply (proj1 (DataFrame_and_getitem_errors
                    [("email", ["a"; "b"]); ("label", ["spam"])]
                    (Pandas.mkFrame [] []) EmptyString)).
    exists ("email", ["a"; "b"]), ("label", ["spam"]).
    cbn. repeat split; auto.
  - apply (proj2 (DataFrame_and_getitem_errors []
                    (Pandas.mkFrame ["email"; "label"] []) "text")).
    cbn. intuition discriminate.
Defined.




(** ** Metrics: every sample is counted once *)

Lemma increasing_head (a : string) (r : list string) :
  increasing (a :: r) -> Forall (fun b => String.compare a b = Lt) r.
Proof.
  revert a. induction r as [|b r IH]; intros a H; [constructor|].
  destruct H as [Hab Hr]. constructor; [exact Hab|].
  specialize (IH b Hr). revert IH. apply Forall_impl.
  intros c Hbc. apply (compare_lt_trans a b c); assumption.
Qed.

Lemma compare_refl_eq (a : string) : String.compare a a = Eq.
Proof.
  induction a as [|c a IH]; [reflexivity|]. cbn.
  unfold Ascii.compare. rewrite N.compare_refl. exact IH.
Qed.

Lemma list_sum_cons_eq (a : nat) (l : list nat) :
  list_sum (a :: l) = a + list_sum l.
Proof. reflexivity. Qed.

(** In a strictly increasing list a member is met exactly once. *)
Lemma increasing_count (x : string) (l : list string) :
  increasing l -> In x l ->
  list_sum (map (fun a => if String.eqb x a then 1 else 0) l) = 1.
Proof.
  induction l as [|a r IH]; intros Hinc Hin; [destruct Hin|].
  cbn [map]; rewrite list_sum_cons_eq. pose proof (increasing_head a r Hinc) as Hh.
  destruct Hinc as [_ Hr]. destruct (String.eqb_spec x a) as [E|Hne].
  - subst a.
    assert (Hz : list_sum (map (fun b => if String.eqb x b then 1 else 0) r) = 0).
    { clear IH Hin Hr. induction Hh as [|b r Hb _ IHr]; [reflexivity|].
      cbn [map]; rewrite list_sum_cons_eq. destruct (String.eqb_spec x b) as [<-|_].
      - rewrite compare_refl_eq in Hb. discriminate.
      - exact IHr. }
    rewrite Hz. reflexivity.
  - destruct Hin as [->|Hin]; [congruence|]. rewrite (IH Hr Hin). reflexivity.
Qed.

Lemma list_sum_map_add {A} (f g : A -> nat) (l : list A) :
  list_sum (map (fun a => f a + g a) l) = list_sum (map f l) + list_sum (map g l).
Proof.
  induction l as [|a l IH]; [reflexivity|].
  cbn [map]. rewrite !list_sum_cons_eq, IH. lia.
Qed.

Lemma list_sum_map_zero {A} (l : list A) : list_sum (map (fun _ => 0) l) = 0.
Proof.
  induction l as [|a l IH]; [reflexivity|].
  cbn [map]. rewrite list_sum_cons_eq, IH. reflexivity.
Qed.

Lemma cells_total (labels : list string) (pairs : list (string * string)) :
  increasing labels ->
  Forall (fun p => In (fst p) labels /\ In (snd p) labels) pairs ->
  list_sum
    (map (fun a =>
            list_sum
              (map (fun b =>
                      List.length
                        (filter (fun p => String.eqb (fst p) a && String.eqb (snd p) b)
                                pairs))
                   labels))
         labels)
  = List.length pairs.
Proof.
  intros Hinc. induction 1 as [|p pairs [Hp1 Hp2] _ IH].
  - cbn [filter List.length].
    rewrite (map_ext _ (fun _ => 0)); [apply list_sum_map_zero|].
    intro a. apply list_sum_map_zero.
  - cbn [List.length]. rewrite <- IH.
    rewrite (map_ext _
               (fun a =>
                  (if String.eqb (fst p) a then 1 else 0)
                  + list_sum
                      (map (fun b =>
                              List.length
                                (filter (fun q => String.eqb (fst q) a
                                                  && String.eqb (snd q) b) pairs))
                           labels))).
    + rewrite list_sum_map_add, (increasing_count _ _ Hinc Hp1). reflexivity.
    + intro a.
      rewrite (map_ext _
                 (fun b =>
                    (if String.eqb (fst p) a && String.eqb (snd p) b then 1 else 0)
                    + List.length
                        (filter (fun q => String.eqb (fst q) a
                                          && String.eqb (snd q) b) pairs))).
      * rewrite list_sum_map_add. f_equal.
        destruct (String.eqb (fst p) a); cbn [andb].
        -- apply (increasing_count _ _ Hinc Hp2).
        -- apply list_sum_map_zero.
      * intro b. cbn [filter].
        destruct (String.eqb (fst p) a && String.eqb (snd p) b); reflexivity.
Qed.

(** X12: the confusion matrix of two equally long label sequences is square, a
    row and a column per label met, and its cells add up to the number of
    samples. *)
Theorem confusion_matrix_total (y_true y_pred : list string) :
  List.length y_true = List.length y_pred ->
  exists cm,
    Metrics.confusion_matrix y_true y_pred = Ok cm
    /\ List.length cm = List.length (Metrics.unique_labels y_true y_pred)
    /\ Forall (fun row => List.length row
                          = List.length (Metrics.unique_labels y_true y_pred)) cm
    /\ list_sum (map (@list_sum) cm) = List.length y_true.
Proof.
  intro Hl. rewrite (confusion_matrix_ok _ _ Hl). eexists. split; [reflexivity|].
  split; [apply length_map|]. split.
  { apply Forall_forall. intros row Hr. apply in_map_iff in Hr.
    destruct Hr as (a & <- & _). apply length_map. }
  rewrite map_map. unfold Metrics.cell.
  destruct (sorted_set_spec (List.app y_true y_pred)) as [Hinc Hmem].
  fold (Metrics.unique_labels y_true y_pred) in Hinc, Hmem.
  rewrite (cells_total _ (combine y_true y_pred) Hinc).
  - rewrite length_combine, <- Hl. apply Nat.min_id.
  - apply Forall_forall. intros [a b] Hin. cbn [fst snd]. split; apply Hmem;
      apply in_or_app; [left; apply (in_combine_l _ _ _ _ Hin)
                       |right; apply (in_combine_r _ _ _ _ Hin)].
Qed.

Lemma confusion_matrix_total_witness :
  exists cm,
    Metrics.confusion_matrix ["spam"; "ham"; "ham"] ["spam"; "spam"; "spam"] = Ok cm
    /\ list_sum (map (@list_sum) cm) = 3.
Proof.
  destruct (confusion_matrix_total ["spam"; "ham"; "ham"] ["spam"; "spam"; "spam"]
              eq_refl) as (cm & H & _ & _ & Hs).
  exists cm. split; assumption.
Defined.

Lemma sorted_set_single (c : string) (l : list string) :
  l <> [] -> Forall (eq c) l -> Text.sorted_set l = [c].
Proof.
  intros Hne H. unfold Text.sorted_set.
  destruct H as [|x l <- H]; [congruence|]. cbn [fold_left Text.insert].
  clear Hne. induction H as [|y l <- _ IH]; [reflexivity|].
  cbn [fold_left Text.insert]. rewrite compare_refl_eq. exact IH.
Qed.

(** X13: the report is asked for with two display names.  When the true and
    the predicted labels together hold a single label, the report is
    refused with the [ValueError] that counts one class against two
    names. *)
Theorem classification_report_one_class (c : string) (y_true y_pred : list string) :
  y_true <> [] ->
  List.length y_true = List.length y_pred ->
  Forall (eq c) y_true -> Forall (eq c) y_pred ->
  Metrics.classification_report y_true y_pred ["ham"; "spam"]
  = Raise (ValueError
             "Number of classes, 1, does not match size of target_names, 2. Try specifying the labels parameter").
Proof.
  intros Hne Hl Ht Hp. unfold Metrics.classification_report.
  rewrite Hl, Nat.eqb_refl. cbn [negb].
  unfold Metrics.unique_labels.
  rewrite (sorted_set_single c).
  - reflexivity.
  - destruct y_true; [congruence|discriminate].
  - apply Forall_app. split; assumption.
Qed.

Lemma classification_report_one_class_witness :
  Metrics.classification_report ["ham"; "ham"; "ham"] ["ham"; "ham"; "ham"]
    ["ham"; "spam"]
  = Raise (ValueError
             "Number of classes, 1, does not match size of target_names, 2. Try specifying the labels parameter").
Proof.
  apply (classification_report_one_class "ham"); try reflexivity;
    [discriminate|repeat constructor|repeat constructor].
Defined.

(** ** The script against any libraries *)

Lemma bind_call_eq {A B} (c : callee) (op : Lib A) (k : A -> M B)
    (tr : list event) (w : world) :
  bind (call c op) k tr w
  = match op w with
    | (w', Ok a) => k a (List.app tr [(c, Returned)]) w'
    | (w', Raise e) => ((List.app tr [(c, Raised e)], w'), Raise e)
    | (w', Unbounded) => ((List.app tr [(c, Cut)], w'), Unbounded)
    end.
Proof. unfold bind, call. destruct (op w) as [w' [a|e|]]; reflexivity. Qed.

Ltac run_call :=
  match goal with
  | |- context [bind (call ?c ?op) ?k ?tr ?w] =>
      rewrite (bind_call_eq c op k tr w);
      let w' := fresh "w" in
      destruct (op w) as [w' [?|?|]];
      cbn [List.app];
      [|exists 3; split; [lia|split; [reflexivity|discriminate]]
       |exists 3; split; [lia|split; [reflexivity|discriminate]]]
  end.

(** X1: the script is straight-line code: whatever the libraries return, the
    calls made are an initial part of one fixed sequence, and the loop over
    [zip(new_emails, new_predictions)] prints as many lines as the shorter
    of the two has entries. *)
Theorem notebook_calls_fixed (L : library) (w : world) :
  exists n,
    n <= 3
    /\ is_prefix (map fst (trace_of (notebook L [] w))) (script_calls n) = true
    /\ forall ns,
         value_of (notebook L [] w) = Ok ns ->
         map fst (trace_of (notebook L [] w))
         = script_calls (Nat.min 3 (List.length (new_predictions ns))).
Proof.
  unfold notebook.
  do 31 run_call.
  unfold the_new_emails.
  match goal with a : list string |- _ =>
    destruct a as [|p1 [|p2 [|p3 rest]]] end;
    cbn [combine for_each];
    repeat (rewrite bind_assoc; run_call);
    unfold bind, ret, trace_of, value_of; cbn [fst snd map].
  all: [> exists 0 | exists 1 | exists 2 | exists 3].
  all: split; [lia|split; [reflexivity|]].
  all: intros ns [= <-]; cbn [new_predictions List.length]; reflexivity.
Qed.
